(** * Denvr Cloud catalog fetcher: a shallow embedding and its properties

    Source: [sky/clouds/service_catalog/data_fetchers/fetch_denvr_cloud.py].

    The script authenticates against the provider, fetches the VM
    availability of every known cluster and streams one CSV row per
    offering.  The embedding below follows the script function by function:
    Python values are an untyped value type (the JSON bodies are not
    validated by the script), exceptions are an error result, and the
    effects (HTTP requests, the output file, standard output) are threaded
    through a small state-and-error monad. *)

From Stdlib Require Import ZArith String Ascii List Lia.
From stdpp Require Import base gmap list strings.

Open Scope string_scope.

(** ** Python values, exceptions and the operators the script uses *)

Module Py.

(** What [json.loads] can produce, which is also everything the script
    hands to [csv.writer.writerow].  A [dict] keeps its insertion order, so
    it is an association list; [dict_lookup] reads the first binding of a
    key.  A float is carried as its IEEE-754 binary64 bit pattern: the
    script never computes on numbers, it only passes them along. *)
#[warnings="-register-all"]
Inductive pyval : Type :=
| PNone
| PBool (b : bool)
| PInt (n : Z)
| PFloat (bits : Z)
| PStr (s : string)
| PList (items : list pyval)
| PDict (entries : list (string * pyval)).

(** The exceptions that can leave the script.  The specification's names
    for them are: [AssertionError] raised by [get_credentials] is its
    MissingCredentialsError; [HTTPError] raised by [raise_for_status] is its
    AuthenticationError (on the POST) or FetchError (on the GET);
    [KeyError], [TypeError], [AttributeError] and [JSONDecodeError] on a
    response body are its MalformedResponseError. *)
Inductive exn : Type :=
| AssertionError
| HTTPError (status : Z)
| ConnectionError
| JSONDecodeError
| KeyError (key : string)
| TypeError
| AttributeError
| OSError.

Inductive result (A : Type) : Type :=
| Ok (a : A)
| Raise (e : exn).

Arguments Ok {A} a.
Arguments Raise {A} e.

Definition rbind {A B : Type} (m : result A) (k : A -> result B) : result B :=
  match m with
  | Ok a => k a
  | Raise e => Raise e
  end.

(** [d[k]] on the entries of a dict, [None] when the key is missing. *)
Fixpoint dict_lookup (d : list (string * pyval)) (k : string) : option pyval :=
  match d with
  | [] => None
  | (k', v) :: rest => if String.eqb k' k then Some v else dict_lookup rest k
  end.

(** [list(d.keys())], in insertion order. *)
Definition dict_keys (d : list (string * pyval)) : list string := map fst d.

(** [v.get(k, dflt)]: only a dict has the method. *)
Definition py_get (v : pyval) (k : string) (dflt : pyval) : result pyval :=
  match v with
  | PDict d => Ok (default dflt (dict_lookup d k))
  | _ => Raise AttributeError
  end.

(** [v[k]] for a string key [k]: a dict raises [KeyError] on a missing key,
    every other value raises [TypeError] (not subscriptable, or indices
    must be integers). *)
Definition py_getitem (v : pyval) (k : string) : result pyval :=
  match v with
  | PDict d =>
      match dict_lookup d k with
      | Some x => Ok x
      | None => Raise (KeyError k)
      end
  | _ => Raise TypeError
  end.

(** [s.startswith(p)]. *)
Fixpoint startswith (p s : string) : bool :=
  match p, s with
  | EmptyString, _ => true
  | String _ _, EmptyString => false
  | String a p', String b s' => Ascii.eqb a b && startswith p' s'
  end.

(** [needle in hay] for two strings: [needle] occurs as a contiguous
    substring of [hay]. *)
Fixpoint str_contains (needle hay : string) : bool :=
  startswith needle hay ||
  match hay with
  | EmptyString => false
  | String _ rest => str_contains needle rest
  end.

(** [x == PStr s] for a string on the left of [in] and a container element
    on the right: a string equals only an equal string. *)
Definition eq_str (s : string) (x : pyval) : bool :=
  match x with
  | PStr t => String.eqb s t
  | _ => false
  end.

(** [needle in hay] where [needle] is a string and [hay] any value:
    substring test on a string, element membership on a list, key membership
    on a dict; [None], booleans and numbers are not containers and raise
    [TypeError] (argument of type ... is not iterable). *)
Definition py_contains (needle : string) (hay : pyval) : result bool :=
  match hay with
  | PStr s => Ok (str_contains needle s)
  | PList l => Ok (existsb (eq_str needle) l)
  | PDict d => Ok (existsb (String.eqb needle) (dict_keys d))
  | PNone | PBool _ | PInt _ | PFloat _ => Raise TypeError
  end.

(** The characters of a string, each as a one-character string. *)
Fixpoint chars (s : string) : list pyval :=
  match s with
  | EmptyString => []
  | String c rest => PStr (String c EmptyString) :: chars rest
  end.

(** What [for x in v] iterates over. *)
Definition py_iter (v : pyval) : result (list pyval) :=
  match v with
  | PList l => Ok l
  | PStr s => Ok (chars s)
  | PDict d => Ok (map PStr (dict_keys d))
  | PNone | PBool _ | PInt _ | PFloat _ => Raise TypeError
  end.

(** Truth value of an [Optional[str]]: [None] and [''] are false. *)
Definition truthy (o : option string) : bool :=
  match o with
  | None => false
  | Some EmptyString => false
  | Some (String _ _) => true
  end.

(** [a or b] on two [Optional[str]] values. *)
Definition py_or (a b : option string) : option string :=
  if truthy a then a else b.

(** An [Optional[str]] as a value. *)
Definition of_opt_str (o : option string) : pyval :=
  match o with
  | None => PNone
  | Some s => PStr s
  end.

(** [os.path.dirname] (POSIX): everything up to the last slash, without
    trailing slashes unless it consists of slashes only. *)
Fixpoint drop_to_slash (rev_path : list ascii) : list ascii :=
  match rev_path with
  | [] => []
  | c :: rest => if Ascii.eqb c "/"%char then rev_path else drop_to_slash rest
  end.

Fixpoint lstrip_slash (l : list ascii) : list ascii :=
  match l with
  | [] => []
  | c :: rest => if Ascii.eqb c "/"%char then lstrip_slash rest else l
  end.

Definition dirname (p : string) : string :=
  let head := drop_to_slash (rev (list_ascii_of_string p)) in
  match lstrip_slash head with
  | [] => string_of_list_ascii (rev head)
  | stripped => string_of_list_ascii (rev stripped)
  end.

Notation "'let+' x ':=' m 'in' k" := (rbind m (fun x => k))
  (at level 10, x pattern, m at level 100, k at level 200).

End Py.

Import Py.

(** ** The outside world: HTTP, environment, file system *)

Inductive http_method : Type := GET | POST.

(** A header value as the script builds it: a literal, the f-string
    [f'Bearer {token}'], or a value passed as it is. *)
Inductive header_value : Type :=
| HLit (s : string)
| HBearer (token : pyval)
| HVal (v : pyval).

Record request : Type := {
  req_method : http_method;
  req_url : string;
  req_headers : list (string * header_value);
  req_json : option pyval
}.

(** What the script looks at in a [requests.Response]: the status code and
    the body as [response.json()] parses it ([None] when the body is not
    JSON). *)
Record response : Type := {
  status_code : Z;
  json_body : option pyval
}.

(** [response.raise_for_status()] of the [requests] library: raises
    [HTTPError] exactly for the client-error (4xx) and server-error (5xx)
    status codes. *)
Definition raise_for_status (r : response) : result unit :=
  if (400 <=? status_code r)%Z && (status_code r <? 600)%Z
  then Raise (HTTPError (status_code r))
  else Ok tt.

(** [response.json()]. *)
Definition response_json (r : response) : result pyval :=
  match json_body r with
  | Some v => Ok v
  | None => Raise JSONDecodeError
  end.

(** Everything the run reads from outside: the process environment, the
    provider's answer to each request (or the transport error [requests]
    raises), and whether the file-system calls fail.  A run never sends
    the same request twice (one POST, then one GET per cluster, each with
    its own URL), so the provider is a function of the request. *)
Record world : Type := {
  environ : gmap string string;
  server : request -> result response;
  makedirs_error : string -> option exn;
  open_error : string -> option exn
}.

(** A CSV row as handed to [writer.writerow]: the list of cell values.
    How the [csv] module renders a cell as text is not modelled. *)
Abbreviation row := (list pyval).

(** Everything the run changes: the files it writes (as their rows), the
    requests it has sent (oldest first), and the lines it has printed. *)
Record state : Type := {
  files : gmap string (list row);
  netlog : list request;
  stdout : list string
}.

Definition initial_state : state :=
  {| files := ∅; netlog := []; stdout := [] |}.

(** ** The monad of the script: state plus exceptions.  The state survives
    an exception, so that a half-written file can be inspected. *)

Definition M (A : Type) : Type := state -> result A * state.

Definition ret {A : Type} (a : A) : M A := fun st => (Ok a, st).

Definition bind {A B : Type} (m : M A) (k : A -> M B) : M B :=
  fun st =>
    match m st with
    | (Ok a, st') => k a st'
    | (Raise e, st') => (Raise e, st')
    end.

Definition lift {A : Type} (r : result A) : M A := fun st => (r, st).

Notation "'let*' x ':=' m 'in' k" := (bind m (fun x => k))
  (at level 10, x pattern, m at level 100, k at level 200).

Notation "m1 ;; m2" := (bind m1 (fun _ => m2))
  (at level 100, right associativity).

(** [for x in l: body(x)]. *)
Fixpoint for_each {A : Type} (l : list A) (body : A -> M unit) : M unit :=
  match l with
  | [] => ret tt
  | x :: rest => body x ;; for_each rest body
  end.

(** The four ways the run changes its state. *)
Definition log_line (line : string) (st : state) : state :=
  {| files := files st; netlog := netlog st;
     stdout := (stdout st ++ [line])%list |}.

Definition log_request (req : request) (st : state) : state :=
  {| files := files st; netlog := (netlog st ++ [req])%list;
     stdout := stdout st |}.

Definition truncate (path : string) (st : state) : state :=
  {| files := <[path := []]> (files st); netlog := netlog st;
     stdout := stdout st |}.

Definition add_row (path : string) (r : row) (st : state) : state :=
  {| files := <[path := (default [] (files st !! path) ++ [r])%list]> (files st);
     netlog := netlog st; stdout := stdout st |}.

(** [print(line)]. *)
Definition print (line : string) : M unit :=
  fun st => (Ok tt, log_line line st).

(** [requests.post] / [requests.get]: the request is logged and answered by
    the world. *)
Definition send (w : world) (req : request) : M response :=
  fun st => (server w req, log_request req st).

(** [os.makedirs(path, exist_ok=True)]. *)
Definition makedirs (w : world) (path : string) : M unit :=
  fun st => match makedirs_error w path with
            | Some e => (Raise e, st)
            | None => (Ok tt, st)
            end.

(** [open(path, mode='w')]: creates or truncates the file. *)
Definition open_w (w : world) (path : string) : M unit :=
  fun st => match open_error w path with
            | Some e => (Raise e, st)
            | None => (Ok tt, truncate path st)
            end.

(** [writer.writerow(r)] on the writer of the file at [path]. *)
Definition writerow (path : string) (r : row) : M unit :=
  fun st => (Ok tt, add_row path r st).

(** ** The script *)

Definition AUTH_ENDPOINT : string :=
  "https://api.cloud.denvrdata.com/api/TokenAuth/Authenticate".

(** [GET_AVAILABILITY_ENDPOINT_TEMPLATE.format(cluster=cluster)]. *)
Definition GET_AVAILABILITY_ENDPOINT (cluster : string) : string :=
  "https://api.cloud.denvrdata.com/api/v1/servers/virtual/GetAvailability?cluster="
  ++ cluster ++ "&resourcePool=on-demand".

Definition DEFAULT_OUTPUT_PATH : string := "denvr/vms.csv".

(** Known GPU types and their memory in MiB, in the order of the dict
    literal. *)
Definition GPU_TO_MEMORY : list (string * pyval) :=
  [ ("A100", PInt 40960);
    ("A100_80GB", PInt 81920);
    ("V100", PInt 16384);
    ("T4", PInt 16384);
    ("P100", PInt 16384);
    ("K80", PInt 12288);
    ("H100", PInt 81920);
    ("GENERAL", PNone) ].

Definition CLUSTERS : list string := [ "Msc1"; "Hou1" ].

Definition HEADER : row :=
  [ PStr "Configuration"; PStr "Cluster"; PStr "Resource Pool"; PStr "Type";
    PStr "Price"; PStr "Available"; PStr "Count"; PStr "MaxCount";
    PStr "GPU_Type"; PStr "GPU_Memory(MiB)" ].

(** The POST that [authenticate] sends. *)
Definition auth_request (username password : string) : request :=
  {| req_method := POST;
     req_url := AUTH_ENDPOINT;
     req_headers := [ ("Content-Type", HLit "application/json-patch+json") ];
     req_json := Some (PDict [ ("userNameOrEmailAddress", PStr username);
                               ("password", PStr password) ]) |}.

Definition authenticate (w : world) (username password : string)
  : M (pyval * pyval) :=
  let* response := send w (auth_request username password) in
  lift (raise_for_status response) ;;
  let* auth_data := lift (response_json response) in
  let* result1 := lift (py_getitem auth_data "result") in
  let* access_token := lift (py_getitem result1 "accessToken") in
  let* result2 := lift (py_getitem auth_data "result") in
  let* refresh_token := lift (py_getitem result2 "refreshToken") in
  ret (access_token, refresh_token).

(** The GET that [fetch_vms_for_cluster] sends. *)
Definition fetch_request (cluster : string) (access_token refresh_token : pyval)
  : request :=
  {| req_method := GET;
     req_url := GET_AVAILABILITY_ENDPOINT cluster;
     req_headers := [ ("Authorization", HBearer access_token);
                      ("encryptedAccessToken", HVal refresh_token);
                      ("Content-Type", HLit "application/json") ];
     req_json := None |}.

(** [response.json().get('result', {}).get('items', [])]. *)
Definition result_items (body : pyval) : result pyval :=
  let+ res := py_get body "result" (PDict []) in
  py_get res "items" (PList []).

Definition fetch_vms_for_cluster (w : world) (cluster : string)
  (access_token refresh_token : pyval) : M pyval :=
  let* response := send w (fetch_request cluster access_token refresh_token) in
  lift (raise_for_status response) ;;
  let* body := lift (response_json response) in
  lift (result_items body).

(** The loop of [create_catalog] over [GPU_TO_MEMORY.keys()], with its
    [break]: the first key that is [in] the configuration, in key order. *)
Fixpoint scan_gpu_keys (keys : list string) (configuration : pyval)
  : result (option string) :=
  match keys with
  | [] => Ok None
  | gpu :: rest =>
      let+ found := py_contains gpu configuration in
      if found then Ok (Some gpu) else scan_gpu_keys rest configuration
  end.

(** The GPU block of [create_catalog] (the specification's classify_gpu):
    [gpu_type] from the scan, then
    [gpu_memory = GPU_TO_MEMORY.get(gpu_type, 0) if gpu_type else 0]. *)
Definition classify_gpu (configuration : pyval) : result (option string * pyval) :=
  let+ gpu_type := scan_gpu_keys (dict_keys GPU_TO_MEMORY) configuration in
  let gpu_memory :=
    if truthy gpu_type
    then match gpu_type with
         | Some k => default (PInt 0) (dict_lookup GPU_TO_MEMORY k)
         | None => PInt 0
         end
    else PInt 0 in
  Ok (gpu_type, gpu_memory).

(** The row [create_catalog] builds for one item of a fetched list. *)
Definition catalog_row (vm : pyval) : result row :=
  let+ configuration := py_get vm "configuration" PNone in
  let+ cluster_name := py_get vm "cluster" PNone in
  let+ rpool := py_get vm "rpool" PNone in
  let+ vm_type := py_get vm "type" PNone in
  let+ price := py_get vm "price" PNone in
  let+ available := py_get vm "available" PNone in
  let+ count := py_get vm "count" PNone in
  let+ max_count := py_get vm "maxCount" PNone in
  let+ (gpu_type, gpu_memory) := classify_gpu configuration in
  Ok [ configuration; cluster_name; rpool; vm_type; price; available; count;
       max_count; of_opt_str gpu_type; gpu_memory ].

(** Body of the inner loop, [for vm in vms]. *)
Definition vm_body (output_path : string) (vm : pyval) : M unit :=
  let* r := lift (catalog_row vm) in
  writerow output_path r.

(** Body of the outer loop, [for cluster in CLUSTERS]. *)
Definition cluster_body (w : world) (access_token refresh_token : pyval)
  (output_path : string) (cluster : string) : M unit :=
  print ("Fetching VM availability for cluster: " ++ cluster ++ "...") ;;
  let* vms := fetch_vms_for_cluster w cluster access_token refresh_token in
  let* items := lift (py_iter vms) in
  for_each items (vm_body output_path).

Definition create_catalog (w : world) (access_token refresh_token : pyval)
  (output_path : string) : M unit :=
  open_w w output_path ;;
  writerow output_path HEADER ;;
  for_each CLUSTERS (cluster_body w access_token refresh_token output_path) ;;
  print ("Denvr Cloud catalog saved to " ++ output_path).

(** The parsed command line: [--username] and [--password] are [None] when
    not given, [--output] has a default. *)
Record namespace : Type := {
  args_username : option string;
  args_password : option string;
  args_output : string
}.

(** The [assert] is modelled as the interpreter runs it by default (without
    [-O]): a failed assertion raises [AssertionError]. *)
Definition get_credentials (w : world) (cmdline_args : namespace)
  : result (string * string) :=
  let username :=
    py_or (args_username cmdline_args) (environ w !! "DENVR_CLOUD_USER_EMAIL") in
  let password :=
    py_or (args_password cmdline_args) (environ w !! "DENVR_CLOUD_PASSWORD") in
  match username, password with
  | Some u, Some p => Ok (u, p)
  | _, _ => Raise AssertionError
  end.

(** The [__main__] block, after argument parsing. *)
Definition main (w : world) (args : namespace) : M unit :=
  makedirs w (dirname (args_output args)) ;;
  let* (user, pwd) := lift (get_credentials w args) in
  let* (access_token, refresh_token) := authenticate w user pwd in
  create_catalog w access_token refresh_token (args_output args).

(** ** Vocabulary of the properties *)

(** [needle] occurs in [hay]: the meaning of Python's [in] on strings. *)
Definition substring_of (needle hay : string) : Prop :=
  exists pre post : string, hay = pre ++ needle ++ post.

(** The keys that come before [k] in a key sequence. *)
Fixpoint keys_before (k : string) (keys : list string) : list string :=
  match keys with
  | [] => []
  | k' :: rest => if String.eqb k' k then [] else k' :: keys_before k rest
  end.

(** [vm.get(k)] on the entries of a dict. *)
Definition field (d : list (string * pyval)) (k : string) : pyval :=
  default PNone (dict_lookup d k).

(** The row of a JSON object with entries [d], given what the GPU block
    computed: the eight values read with [vm.get], then GPU type and
    memory. *)
Definition offering_row (d : list (string * pyval)) (gpu_type : option string)
  (gpu_memory : pyval) : row :=
  [ field d "configuration"; field d "cluster"; field d "rpool"; field d "type";
    field d "price"; field d "available"; field d "count"; field d "maxCount";
    of_opt_str gpu_type; gpu_memory ].

(** An item of a fetched list that is an offering in the sense of the data
    model: a JSON object whose [configuration] is a string. *)
Definition is_offering (vm : pyval) : Prop :=
  exists d cfg, vm = PDict d /\ dict_lookup d "configuration" = Some (PStr cfg).

(** The value [fetch_vms_for_cluster] returns or the exception it raises,
    as a function of the world's answer alone. *)
Definition fetch_value (w : world) (cluster : string)
  (access_token refresh_token : pyval) : result pyval :=
  let+ response := server w (fetch_request cluster access_token refresh_token) in
  let+ _ := raise_for_status response in
  let+ body := response_json response in
  result_items body.

(** The pair [authenticate] returns or the exception it raises, as a
    function of the world's answer alone. *)
Definition auth_value (w : world) (username password : string)
  : result (pyval * pyval) :=
  let+ response := server w (auth_request username password) in
  let+ _ := raise_for_status response in
  let+ auth_data := response_json response in
  let+ result1 := py_getitem auth_data "result" in
  let+ access_token := py_getitem result1 "accessToken" in
  let+ result2 := py_getitem auth_data "result" in
  let+ refresh_token := py_getitem result2 "refreshToken" in
  Ok (access_token, refresh_token).

(** The row of an item, [[]] when building it raises. *)
Definition row_of (vm : pyval) : row :=
  match catalog_row vm with
  | Ok r => r
  | Raise _ => []
  end.

(** The state in which the loop over the clusters starts: the file is
    truncated and holds the header. *)
Definition header_written (path : string) (st : state) : state :=
  add_row path HEADER (truncate path st).

(** Several [writerow] calls in a row. *)
Definition add_rows (path : string) (rs : list row) (st : state) : state :=
  fold_left (fun s r => add_row path r s) rs st.

(** The state right after the loop body for [cluster] has sent its GET. *)
Definition fetching (access_token refresh_token : pyval) (cluster : string)
  (st : state) : state :=
  log_request (fetch_request cluster access_token refresh_token)
    (log_line ("Fetching VM availability for cluster: " ++ cluster ++ "...") st).

(** The rows of a cluster's items, in the order of the items. *)
Definition block (items : list pyval) : list row := map row_of items.

(** The state after the loop has gone through [clusters] when the fetch of
    each returned the list [items c] and every item got its row. *)
Definition clusters_done (path : string) (access_token refresh_token : pyval)
  (items : string -> list pyval) (clusters : list string) (st : state) : state :=
  fold_left
    (fun s c => add_rows path (block (items c)) (fetching access_token refresh_token c s))
    clusters st.

(** The fetch of every cluster in [clusters] returns the list [items c], and
    all its items are offerings. *)
Definition fetches_offerings (w : world) (access_token refresh_token : pyval)
  (items : string -> list pyval) (clusters : list string) : Prop :=
  forall c, In c clusters ->
    fetch_value w c access_token refresh_token = Ok (PList (items c)) /\
    forall vm, In vm (items c) -> is_offering vm.

(** The rows of the file at [path], none when it does not exist. *)
Definition rows_at (path : string) (st : state) : list row :=
  default [] (files st !! path).

(** The value at a path of keys through nested JSON objects, if the path
    exists. *)
Fixpoint json_path (v : pyval) (keys : list string) : option pyval :=
  match keys with
  | [] => Some v
  | k :: rest =>
      match v with
      | PDict d =>
          match dict_lookup d k with
          | Some v' => json_path v' rest
          | None => None
          end
      | _ => None
      end
  end.

(** How one credential is resolved to [v]: a non-empty command-line value
    is taken as it is; with no command-line value, or an empty one, the
    environment variable is taken. *)
Definition resolved (cli env : option string) (v : string) : Prop :=
  (cli = Some v /\ v <> "") \/ ((cli = None \/ cli = Some "") /\ env = Some v).

(** A credential neither source provides. *)
Definition unresolved (cli env : option string) : Prop :=
  (cli = None \/ cli = Some "") /\ env = None.

(** The status codes of the successful class (2xx). *)
Definition success_status (s : Z) : Prop := (200 <= s < 300)%Z.

(** The status codes [raise_for_status] rejects: client and server errors. *)
Definition error_status (s : Z) : Prop := (400 <= s < 600)%Z.

(** *** A pure view of the loops

    What the two loops of [create_catalog] produce, computed without the
    state: the rows, and how the loop ends.  The lemmas [vm_loop_replay],
    [cluster_body_replay] and [cluster_loop_replay] show that the script
    does exactly this to whatever state it starts from. *)

(** The rows the inner loop writes for [items] and how it ends: it stops at
    the first item whose row cannot be built. *)
Fixpoint item_rows (items : list pyval) : list row * result unit :=
  match items with
  | [] => ([], Ok tt)
  | vm :: rest =>
      match catalog_row vm with
      | Ok r => let (rs, res) := item_rows rest in (r :: rs, res)
      | Raise e => ([], Raise e)
      end
  end.

(** The rows one pass of the outer loop writes and how it ends. *)
Definition cluster_outcome (w : world) (access_token refresh_token : pyval)
  (cluster : string) : list row * result unit :=
  match fetch_value w cluster access_token refresh_token with
  | Raise e => ([], Raise e)
  | Ok vms =>
      match py_iter vms with
      | Raise e => ([], Raise e)
      | Ok items => item_rows items
      end
  end.

(** The clusters the outer loop gets to, each with the rows written for
    it, and how the loop ends: it stops at the first pass that raises. *)
Fixpoint catalog_trace (w : world) (access_token refresh_token : pyval)
  (clusters : list string) : list (string * list row) * result unit :=
  match clusters with
  | [] => ([], Ok tt)
  | c :: rest =>
      let (rows, res) := cluster_outcome w access_token refresh_token c in
      match res with
      | Ok _ =>
          let (tr, res') := catalog_trace w access_token refresh_token rest in
          ((c, rows) :: tr, res')
      | Raise e => ([(c, rows)], Raise e)
      end
  end.

(** The state after the passes of a trace: per cluster the announcement,
    the request, then the rows. *)
Definition replay (path : string) (access_token refresh_token : pyval)
  (trace : list (string * list row)) (st : state) : state :=
  fold_left
    (fun s cr => add_rows path (snd cr) (fetching access_token refresh_token (fst cr) s))
    trace st.

(** The line printed before a cluster is fetched, and the last line of a
    completed run. *)
Definition announcement (cluster : string) : string :=
  "Fetching VM availability for cluster: " ++ cluster ++ "...".


(** A value that is not a container: [None], a boolean or a number. *)
Definition scalar (v : pyval) : Prop :=
  match v with
  | PNone | PBool _ | PInt _ | PFloat _ => True
  | PStr _ | PList _ | PDict _ => False
  end.

(** ** Sample runs

    Worlds with a scripted provider, used to exercise the properties on
    concrete runs. *)

Definition tokens_body (access_token refresh_token : pyval) : pyval :=
  PDict [ ("result", PDict [ ("accessToken", access_token);
                             ("refreshToken", refresh_token) ]) ].

Definition items_body (items : pyval) : pyval :=
  PDict [ ("result", PDict [ ("items", items) ]) ].

Definition reply (status : Z) (body : pyval) : result response :=
  Ok {| status_code := status; json_body := Some body |}.

(** A provider that answers the authentication POST with [auth] and the
    availability GETs of the two clusters with [msc1] and [hou1]. *)
Definition serve (auth msc1 hou1 : result response) (req : request)
  : result response :=
  match req_method req with
  | POST => auth
  | GET =>
      if String.eqb (req_url req) (GET_AVAILABILITY_ENDPOINT "Msc1")
      then msc1 else hou1
  end.

(** [os.makedirs('')] raises; every other directory can be created and
    every file opened. *)
Definition sample_world (env : gmap string string)
  (auth msc1 hou1 : result response) : world :=
  {| environ := env;
     server := serve auth msc1 hou1;
     makedirs_error := fun dir => match dir with
                                  | EmptyString => Some OSError
                                  | String _ _ => None
                                  end;
     open_error := fun _ => None |}.

Definition cpu_entries : list (string * pyval) :=
  [ ("configuration", PStr "generic-cpu-node"); ("cluster", PStr "Msc1");
    ("resourcePool", PStr "on-demand"); ("type", PStr "cpu");
    ("price", PFloat 4602678819172646912); ("available", PInt 4);
    ("count", PInt 4); ("maxCount", PInt 8) ].

Definition t4_entries : list (string * pyval) :=
  [ ("configuration", PStr "T4-small"); ("cluster", PStr "Hou1");
    ("rpool", PStr "on-demand"); ("type", PStr "gpu");
    ("price", PFloat 4612811918334230528); ("available", PInt 1);
    ("count", PInt 1); ("maxCount", PInt 2) ].

Definition general_entries : list (string * pyval) :=
  [ ("configuration", PStr "GENERAL-cpu-node"); ("cluster", PStr "Msc1") ].

Definition null_configuration_entries : list (string * pyval) :=
  [ ("configuration", PNone); ("cluster", PStr "Hou1") ].

(** Both clusters answer 200, the first with a CPU offering, the second
    with a T4 offering. *)
Definition two_cluster_world : world :=
  sample_world ∅ (reply 200 (tokens_body (PStr "access") (PStr "refresh")))
    (reply 200 (items_body (PList [PDict cpu_entries])))
    (reply 200 (items_body (PList [PDict t4_entries]))).

Definition two_cluster_items (cluster : string) : list pyval :=
  if String.eqb cluster "Msc1" then [PDict cpu_entries] else [PDict t4_entries].

(** The first cluster answers 500, the second would answer 200. *)
Definition failing_first_world : world :=
  sample_world ∅ (reply 200 (tokens_body (PStr "access") (PStr "refresh")))
    (reply 500 (PDict []))
    (reply 200 (items_body (PList [PDict t4_entries]))).

(** The first cluster answers 300 (Multiple Choices) with a JSON body, the
    second answers 200. *)
Definition redirect_first_world : world :=
  sample_world ∅ (reply 200 (tokens_body (PStr "access") (PStr "refresh")))
    (reply 300 (items_body (PList [PDict cpu_entries])))
    (reply 200 (items_body (PList [PDict t4_entries]))).

(** The second cluster lists an item whose configuration is null between
    two proper offerings. *)
Definition null_configuration_world : world :=
  sample_world ∅ (reply 200 (tokens_body (PStr "access") (PStr "refresh")))
    (reply 200 (items_body (PList [PDict cpu_entries])))
    (reply 200 (items_body (PList [ PDict t4_entries;
                                    PDict null_configuration_entries;
                                    PDict t4_entries ]))).

(** The first cluster answers 200 with a null [result]. *)
Definition null_result_world : world :=
  sample_world ∅ (reply 200 (tokens_body (PStr "access") (PStr "refresh")))
    (reply 200 (PDict [ ("result", PNone); ("success", PBool true) ]))
    (reply 200 (items_body (PList [PDict t4_entries]))).

(** The first cluster answers 200 with a [result] that has no [items]. *)
Definition no_items_world : world :=
  sample_world ∅ (reply 200 (tokens_body (PStr "access") (PStr "refresh")))
    (reply 200 (PDict [ ("result", PDict [ ("totalCount", PInt 0) ]) ]))
    (reply 200 (items_body (PList [PDict t4_entries]))).

(** Authentication is answered with 300 and a body that holds tokens. *)
Definition redirect_auth_world : world :=
  sample_world ∅ (reply 300 (tokens_body (PStr "access") (PStr "refresh")))
    (reply 200 (items_body (PList [])))
    (reply 200 (items_body (PList []))).

(** Authentication is answered with 401. *)
Definition rejected_auth_world : world :=
  sample_world ∅ (reply 401 (PDict [ ("result", PNone) ]))
    (reply 200 (items_body (PList [])))
    (reply 200 (items_body (PList []))).

Definition both_in_environment : gmap string string :=
  <["DENVR_CLOUD_USER_EMAIL" := "env-user@example.com"]>
    (<["DENVR_CLOUD_PASSWORD" := "env-secret"]> ∅).

(** The two-cluster provider, with both credentials in the environment. *)
Definition credentials_world : world :=
  sample_world both_in_environment
    (reply 200 (tokens_body (PStr "access") (PStr "refresh")))
    (reply 200 (items_body (PList [PDict cpu_entries])))
    (reply 200 (items_body (PList [PDict t4_entries]))).

Definition explicit_args : namespace :=
  {| args_username := Some "cli-user@example.com";
     args_password := None;
     args_output := DEFAULT_OUTPUT_PATH |}.

(** [--username ''] on the command line. *)
Definition empty_username_args : namespace :=
  {| args_username := Some "";
     args_password := Some "cli-secret";
     args_output := DEFAULT_OUTPUT_PATH |}.

Definition no_args : namespace :=
  {| args_username := None;
     args_password := None;
     args_output := DEFAULT_OUTPUT_PATH |}.

(** The first cluster answers 200 with [items] present but null. *)
Definition null_items_world : world :=
  sample_world ∅ (reply 200 (tokens_body (PStr "access") (PStr "refresh")))
    (reply 200 (items_body PNone))
    (reply 200 (items_body (PList [PDict t4_entries]))).

(** The first cluster answers; the connection to the second one fails. *)
Definition unreachable_second_world : world :=
  sample_world both_in_environment
    (reply 200 (tokens_body (PStr "access") (PStr "refresh")))
    (reply 200 (items_body (PList [PDict cpu_entries])))
    (Raise ConnectionError).

(** Authentication is rejected, with both credentials in the environment. *)
Definition rejected_credentials_world : world :=
  sample_world both_in_environment
    (reply 401 (PDict [ ("result", PNone) ]))
    (reply 200 (items_body (PList [PDict cpu_entries])))
    (reply 200 (items_body (PList [PDict t4_entries]))).

(** [DENVR_CLOUD_USER_EMAIL] is set, to the empty string. *)
Definition empty_user_environment : gmap string string :=
  <["DENVR_CLOUD_USER_EMAIL" := ""]>
    (<["DENVR_CLOUD_PASSWORD" := "env-secret"]> ∅).

Definition empty_user_world : world :=
  sample_world empty_user_environment
    (reply 200 (tokens_body (PStr "access") (PStr "refresh")))
    (reply 200 (items_body (PList [])))
    (reply 200 (items_body (PList []))).

(** A state in which the output file and another file already exist. *)
Definition stale_state : state :=
  {| files := <["denvr/vms.csv" := [[PStr "stale"]]]>
                (<["notes.txt" := [[PStr "keep"]]]> ∅);
     netlog := [];
     stdout := ["earlier output"] |}.

(** * Properties *)

(** ** Strings *)

Lemma startswith_iff (p s : string) :
  startswith p s = true <-> exists post, s = p ++ post.
Proof.
  revert s; induction p as [|a p IH]; intros s; simpl.
  - split; [intros _; exists s; reflexivity | reflexivity].
  - destruct s as [|b s].
    + split; [discriminate | intros [post H]; discriminate].
    + rewrite andb_true_iff, Ascii.eqb_eq, IH. split.
      * intros [-> [post ->]]. exists post. reflexivity.
      * intros [post H]. injection H as -> ->. split; [reflexivity | eauto].
Qed.

Lemma str_contains_iff (needle hay : string) :
  str_contains needle hay = true <-> substring_of needle hay.
Proof.
  unfold substring_of. induction hay as [|c hay IH].
  - cbn [str_contains]. rewrite orb_false_r, startswith_iff. split.
    + intros [post H]. exists "", post. exact H.
    + intros [pre [post H]]. destruct pre; [eauto | discriminate].
  - cbn [str_contains]. rewrite orb_true_iff, startswith_iff, IH. split.
    + intros [[post H] | [pre [post H]]].
      * exists "", post. exact H.
      * exists (String c pre), post. simpl. rewrite H. reflexivity.
    + intros [pre [post H]]. destruct pre as [|c' pre].
      * left. exists post. exact H.
      * right. simpl in H. injection H as _ H. eauto.
Qed.

Lemma str_contains_false (needle hay : string) :
  str_contains needle hay = false <-> ~ substring_of needle hay.
Proof.
  rewrite <- str_contains_iff. destruct (str_contains needle hay); split; try congruence; tauto.
Qed.

(** ** GPU classification *)

Section Scan.

Variable configuration : string.

(** On a string the scan never raises; it stops at the first key that
    occurs in it. *)
Lemma scan_gpu_keys_first (table : list (string * pyval)) :
  (exists pre k m post,
      table = (pre ++ (k, m) :: post)%list /\
      (forall k', In k' (dict_keys pre) -> ~ substring_of k' configuration) /\
      substring_of k configuration /\
      dict_lookup table k = Some m /\
      scan_gpu_keys (dict_keys table) (PStr configuration) = Ok (Some k))
  \/ ((forall k', In k' (dict_keys table) -> ~ substring_of k' configuration) /\
      scan_gpu_keys (dict_keys table) (PStr configuration) = Ok None).
Proof.
  induction table as [|[k m] table IH].
  - right. split; [intros k' [] | reflexivity].
  - cbn [dict_keys map fst scan_gpu_keys py_contains rbind].
    destruct (str_contains k configuration) eqn:Hk.
    + left. exists [], k, m, table. repeat split.
      * intros k' [].
      * apply str_contains_iff, Hk.
      * cbn. rewrite String.eqb_refl. reflexivity.
    + apply str_contains_false in Hk.
      destruct IH as [(pre & k0 & m0 & post & -> & Hpre & Hk0 & Hlook & Hscan) | [Hnone Hscan]].
      * left. exists ((k, m) :: pre), k0, m0, post. repeat split; try assumption.
        -- intros k' [<- | Hin]; [exact Hk | exact (Hpre k' Hin)].
        -- cbn. destruct (String.eqb k k0) eqn:E; [|exact Hlook].
           apply String.eqb_eq in E. subst k0. contradiction.
      * right. split; [|exact Hscan].
        intros k' [<- | Hin]; [exact Hk | exact (Hnone k' Hin)].
Qed.

(** A key that occurs in the configuration while no key before it does is
    the one the scan returns. *)
Lemma scan_gpu_keys_at (keys : list string) (k : string) :
  In k keys ->
  substring_of k configuration ->
  (forall k', In k' (keys_before k keys) -> ~ substring_of k' configuration) ->
  scan_gpu_keys keys (PStr configuration) = Ok (Some k).
Proof.
  induction keys as [|k0 keys IH]; intros Hin Hk Hbefore; [destruct Hin|].
  cbn [scan_gpu_keys py_contains rbind]. cbn [keys_before] in Hbefore.
  destruct (String.eqb k0 k) eqn:E.
  - apply String.eqb_eq in E. subst k0.
    apply str_contains_iff in Hk. rewrite Hk. reflexivity.
  - assert (Hk0 : str_contains k0 configuration = false).
    { apply str_contains_false, Hbefore. left. reflexivity. }
    rewrite Hk0. apply IH; [| exact Hk |].
    + destruct Hin as [-> | Hin]; [|exact Hin].
      rewrite String.eqb_refl in E. discriminate.
    + intros k' Hin'. apply Hbefore. right. exact Hin'.
Qed.

End Scan.

(** C2. GPU classification scans the keys of the GPU-memory table in the
    order of its definition and answers with the first key that is a
    substring of the configuration, together with that key's memory value;
    when no key is a substring it answers [(None, 0)].  In particular a
    configuration that contains "H100" and none of the keys before it
    yields [("H100", 81920)], and "A100_80GB-node" resolves to the first
    matching key, "A100". *)
Theorem classify_gpu_table_order (configuration : string) :
  ((exists pre k m post,
       GPU_TO_MEMORY = (pre ++ (k, m) :: post)%list /\
       (forall k', In k' (dict_keys pre) -> ~ substring_of k' configuration) /\
       substring_of k configuration /\
       classify_gpu (PStr configuration) = Ok (Some k, m))
   \/ ((forall k', In k' (dict_keys GPU_TO_MEMORY) -> ~ substring_of k' configuration) /\
       classify_gpu (PStr configuration) = Ok (None, PInt 0)))
  /\ (substring_of "H100" configuration ->
      (forall k', In k' (keys_before "H100" (dict_keys GPU_TO_MEMORY)) ->
                  ~ substring_of k' configuration) ->
      classify_gpu (PStr configuration) = Ok (Some "H100", PInt 81920))
  /\ classify_gpu (PStr "A100_80GB-node") = Ok (Some "A100", PInt 40960).
Proof.
  split; [|split].
  - destruct (scan_gpu_keys_first configuration GPU_TO_MEMORY)
      as [(pre & k & m & post & Heq & Hpre & Hk & Hlook & Hscan) | [Hnone Hscan]].
    + left. exists pre, k, m, post. repeat split; try assumption.
      unfold classify_gpu. rewrite Hscan. cbn [rbind]. rewrite Hlook.
      assert (Hne : truthy (Some k) = true).
      { destruct k; [|reflexivity]. cbn in Hlook. discriminate Hlook. }
      rewrite Hne. reflexivity.
    + right. split; [exact Hnone|]. unfold classify_gpu. rewrite Hscan. reflexivity.
  - intros Hk Hbefore. unfold classify_gpu.
    rewrite (scan_gpu_keys_at configuration (dict_keys GPU_TO_MEMORY) "H100");
      [reflexivity | | exact Hk | exact Hbefore].
    cbn. tauto.
  - reflexivity.
Qed.

(** The specification's example, through the theorem. *)
Lemma classify_gpu_h100_cluster :
  substring_of "H100" "H100-80GB-cluster" /\
  classify_gpu (PStr "H100-80GB-cluster") = Ok (Some "H100", PInt 81920).
Proof.
  assert (Hk : substring_of "H100" "H100-80GB-cluster")
    by (apply str_contains_iff; reflexivity).
  split; [exact Hk|].
  apply (proj1 (proj2 (classify_gpu_table_order "H100-80GB-cluster"))); [exact Hk|].
  intros k' Hin. apply str_contains_false.
  cbn in Hin. repeat (destruct Hin as [<- | Hin]; [reflexivity|]). destruct Hin.
Defined.

(** ** Rows *)

Lemma field_some (d : list (string * pyval)) (k : string) (v : pyval) :
  dict_lookup d k = Some v -> field d k = v.
Proof. intros H. unfold field. rewrite H. reflexivity. Qed.

Lemma field_none (d : list (string * pyval)) (k : string) :
  dict_lookup d k = None -> field d k = PNone.
Proof. intros H. unfold field. rewrite H. reflexivity. Qed.

Lemma catalog_row_dict (d : list (string * pyval)) :
  catalog_row (PDict d) =
  let+ (gpu_type, gpu_memory) := classify_gpu (field d "configuration") in
  Ok (offering_row d gpu_type gpu_memory).
Proof. reflexivity. Qed.

Lemma classify_gpu_total (configuration : string) :
  exists gpu_type gpu_memory,
    classify_gpu (PStr configuration) = Ok (gpu_type, gpu_memory).
Proof.
  unfold classify_gpu.
  destruct (scan_gpu_keys_first configuration GPU_TO_MEMORY)
    as [(_ & k & _ & _ & _ & _ & _ & _ & ->) | [_ ->]]; cbn [rbind]; eauto.
Qed.

(** An offering always gets a row. *)
Lemma catalog_row_offering (vm : pyval) :
  is_offering vm -> catalog_row vm = Ok (row_of vm).
Proof.
  intros (d & cfg & -> & Hcfg). unfold row_of. rewrite catalog_row_dict.
  rewrite (field_some _ _ _ Hcfg).
  destruct (classify_gpu_total cfg) as (g & m & ->). reflexivity.
Qed.

(** [None], booleans and numbers are not containers: the very first [in]
    test of the scan raises. *)
Lemma classify_gpu_scalar (v : pyval) :
  match v with PNone | PBool _ | PInt _ | PFloat _ => True | _ => False end ->
  classify_gpu v = Raise TypeError.
Proof. destruct v; intros []; reflexivity. Qed.

(** On a list or a dict [in] is membership and does not raise either. *)
Lemma scan_gpu_keys_container (keys : list string) (v : pyval) :
  match v with PStr _ | PList _ | PDict _ => True | _ => False end ->
  exists o, scan_gpu_keys keys v = Ok o.
Proof.
  intros Hv. induction keys as [|k keys [o IH]]; [eexists; reflexivity|].
  cbn [scan_gpu_keys]. destruct v; try destruct Hv; cbn [py_contains rbind];
    match goal with |- context [if ?b then _ else _] => destruct b end; eauto.
Qed.

(** For an item that is a JSON object, building the row raises exactly when
    the configuration is [None], a boolean or a number, and then with
    [TypeError]. *)
Lemma catalog_row_raises_iff (d : list (string * pyval)) (e : exn) :
  catalog_row (PDict d) = Raise e <->
  e = TypeError /\
  match field d "configuration" with
  | PNone | PBool _ | PInt _ | PFloat _ => True
  | _ => False
  end.
Proof.
  rewrite catalog_row_dict. split.
  - destruct (field d "configuration") eqn:Hc;
      try (rewrite classify_gpu_scalar by exact I; cbn; intros [= <-]; split; [reflexivity | exact I]);
      unfold classify_gpu;
      match goal with |- context [scan_gpu_keys ?ks ?v] =>
        destruct (scan_gpu_keys_container ks v I) as [o ->] end; cbn; discriminate.
  - intros [-> Hc]. rewrite classify_gpu_scalar; [reflexivity | exact Hc].
Qed.

(** ** Running the loops *)

Lemma vm_body_run (path : string) (vm : pyval) (st : state) :
  vm_body path vm st =
  match catalog_row vm with
  | Ok r => (Ok tt, add_row path r st)
  | Raise e => (Raise e, st)
  end.
Proof. unfold vm_body, bind, lift, writerow. destruct (catalog_row vm); reflexivity. Qed.

Lemma for_each_app {A : Type} (l1 l2 : list A) (body : A -> M unit) (st : state) :
  for_each (l1 ++ l2)%list body st =
  match for_each l1 body st with
  | (Ok _, st') => for_each l2 body st'
  | (Raise e, st') => (Raise e, st')
  end.
Proof.
  revert st; induction l1 as [|x l1 IH]; intros st; [reflexivity|].
  cbn [app for_each]. unfold bind. destruct (body x st) as [[[]|e] st']; [apply IH | reflexivity].
Qed.

(** The inner loop on items that all get a row. *)
Lemma for_each_rows (path : string) (items : list pyval) (st : state) :
  (forall vm, In vm items -> catalog_row vm = Ok (row_of vm)) ->
  for_each items (vm_body path) st = (Ok tt, add_rows path (block items) st).
Proof.
  revert st; induction items as [|vm items IH]; intros st Hall; [reflexivity|].
  cbn [for_each]. unfold bind. rewrite vm_body_run, (Hall vm) by (left; reflexivity).
  rewrite IH by (intros vm' Hin; apply Hall; right; exact Hin). reflexivity.
Qed.

(** The inner loop stops at the first item whose row cannot be built. *)
Lemma for_each_rows_raise (path : string) (good : list pyval) (bad : pyval)
  (rest : list pyval) (e : exn) (st : state) :
  (forall vm, In vm good -> catalog_row vm = Ok (row_of vm)) ->
  catalog_row bad = Raise e ->
  for_each (good ++ bad :: rest)%list (vm_body path) st =
  (Raise e, add_rows path (block good) st).
Proof.
  intros Hgood Hbad. rewrite for_each_app, for_each_rows by exact Hgood.
  cbn [for_each]. unfold bind. rewrite vm_body_run, Hbad. reflexivity.
Qed.

Lemma cluster_body_run (w : world) (a r : pyval) (path cluster : string)
  (st : state) :
  cluster_body w a r path cluster st =
  match fetch_value w cluster a r with
  | Raise e => (Raise e, fetching a r cluster st)
  | Ok vms =>
      match py_iter vms with
      | Raise e => (Raise e, fetching a r cluster st)
      | Ok items => for_each items (vm_body path) (fetching a r cluster st)
      end
  end.
Proof.
  unfold cluster_body, fetch_vms_for_cluster, fetch_value, fetching, bind,
    print, send, lift.
  destruct (server w (fetch_request cluster a r)) as [resp|e]; [|reflexivity].
  cbn [rbind]. destruct (raise_for_status resp) as [[]|e]; [|reflexivity].
  cbn [rbind]. destruct (response_json resp) as [body|e]; [|reflexivity].
  cbn [rbind]. destruct (result_items body) as [vms|e]; [|reflexivity].
  destruct (py_iter vms); reflexivity.
Qed.

Lemma create_catalog_run (w : world) (a r : pyval) (path : string) (st : state) :
  create_catalog w a r path st =
  match open_error w path with
  | Some e => (Raise e, st)
  | None =>
      match for_each CLUSTERS (cluster_body w a r path) (header_written path st) with
      | (Ok _, st') => (Ok tt, log_line ("Denvr Cloud catalog saved to " ++ path) st')
      | (Raise e, st') => (Raise e, st')
      end
  end.
Proof.
  unfold create_catalog, bind, open_w, writerow, print, header_written.
  destruct (open_error w path); [reflexivity|].
  destruct (for_each CLUSTERS _ _) as [[[]|e] st']; reflexivity.
Qed.

(** *** What each step does to the file and to the request log *)

Lemma rows_at_add_row (path : string) (r : row) (st : state) :
  rows_at path (add_row path r st) = (rows_at path st ++ [r])%list.
Proof. unfold rows_at, add_row. cbn [files]. rewrite lookup_insert_eq. reflexivity. Qed.

Lemma rows_at_add_rows (path : string) (rs : list row) (st : state) :
  rows_at path (add_rows path rs st) = (rows_at path st ++ rs)%list.
Proof.
  unfold add_rows. revert st; induction rs as [|r rs IH]; intros st; cbn [fold_left].
  - rewrite app_nil_r. reflexivity.
  - rewrite IH, rows_at_add_row, <- app_assoc. reflexivity.
Qed.

Lemma netlog_add_rows (path : string) (rs : list row) (st : state) :
  netlog (add_rows path rs st) = netlog st.
Proof.
  unfold add_rows. revert st; induction rs as [|r rs IH]; intros st; cbn [fold_left];
    [reflexivity | rewrite IH; reflexivity].
Qed.

Lemma rows_at_header_written (path : string) (st : state) :
  rows_at path (header_written path st) = [HEADER].
Proof.
  unfold header_written. rewrite rows_at_add_row. unfold rows_at, truncate.
  cbn [files]. rewrite lookup_insert_eq. reflexivity.
Qed.

Lemma rows_at_fetching (path : string) (a r : pyval) (cluster : string) (st : state) :
  rows_at path (fetching a r cluster st) = rows_at path st.
Proof. reflexivity. Qed.

Lemma netlog_fetching (a r : pyval) (cluster : string) (st : state) :
  netlog (fetching a r cluster st) = (netlog st ++ [fetch_request cluster a r])%list.
Proof. reflexivity. Qed.

(** Whatever happens, the inner loop only appends rows and sends nothing. *)
Lemma vm_loop_footprint (path : string) (items : list pyval) (st st' : state)
  (res : result unit) :
  for_each items (vm_body path) st = (res, st') ->
  netlog st' = netlog st /\
  exists extra, rows_at path st' = (rows_at path st ++ extra)%list.
Proof.
  revert st; induction items as [|vm items IH]; intros st; cbn [for_each].
  - unfold ret. intros [= <- <-]. split; [reflexivity|].
    exists []. rewrite app_nil_r. reflexivity.
  - unfold bind. rewrite vm_body_run. destruct (catalog_row vm) as [r|e].
    + intros H. apply IH in H as [Hnet [extra Hrows]]. split; [exact Hnet|].
      exists (r :: extra). rewrite Hrows, rows_at_add_row, <- app_assoc. reflexivity.
    + intros [= <- <-]. split; [reflexivity|].
      exists []. rewrite app_nil_r. reflexivity.
Qed.

(** Whatever happens, one pass of the outer loop sends exactly one request,
    the GET for its cluster, and only appends rows. *)
Lemma cluster_body_footprint (w : world) (a r : pyval) (path cluster : string)
  (st st' : state) (res : result unit) :
  cluster_body w a r path cluster st = (res, st') ->
  netlog st' = (netlog st ++ [fetch_request cluster a r])%list /\
  exists extra, rows_at path st' = (rows_at path st ++ extra)%list.
Proof.
  rewrite cluster_body_run.
  assert (Hstop : forall e, (Raise e, fetching a r cluster st) = (res, st') ->
    netlog st' = (netlog st ++ [fetch_request cluster a r])%list /\
    exists extra, rows_at path st' = (rows_at path st ++ extra)%list).
  { intros e [= <- <-]. split; [reflexivity|]. exists []. rewrite app_nil_r. reflexivity. }
  destruct (fetch_value w cluster a r) as [vms|e]; [|apply Hstop].
  destruct (py_iter vms) as [items|e]; [|apply Hstop].
  intros H. apply vm_loop_footprint in H as [Hnet Hrows].
  rewrite Hnet. split; [reflexivity | exact Hrows].
Qed.

(** The outer loop sends the GETs of a prefix of its clusters, in order, and
    of all of them when it completes; it only appends rows. *)
Lemma cluster_loop_footprint (w : world) (a r : pyval) (path : string)
  (clusters : list string) (st st' : state) (res : result unit) :
  for_each clusters (cluster_body w a r path) st = (res, st') ->
  exists n extra,
    netlog st' = (netlog st ++ map (fun c => fetch_request c a r) (firstn n clusters))%list /\
    rows_at path st' = (rows_at path st ++ extra)%list /\
    (forall u, res = Ok u -> firstn n clusters = clusters).
Proof.
  revert st; induction clusters as [|c clusters IH]; intros st; cbn [for_each].
  - unfold ret. intros [= <- <-]. exists 0, []. rewrite !app_nil_r. auto.
  - unfold bind. destruct (cluster_body w a r path c st) as [[[]|e] st1] eqn:Hc;
      apply cluster_body_footprint in Hc as [Hnet [extra1 Hrows]].
    + intros H. apply IH in H as (n & extra & Hnet' & Hrows' & Hok).
      exists (S n), (extra1 ++ extra)%list. cbn [firstn map].
      rewrite Hnet', Hnet, Hrows', Hrows, <- !app_assoc. repeat split.
      intros u Hu. rewrite (Hok u Hu). reflexivity.
    + intros [= <- <-]. exists 1, extra1. cbn [firstn map].
      repeat split; [exact Hnet | exact Hrows | discriminate].
Qed.

Lemma rows_at_clusters_done (path : string) (a r : pyval)
  (items : string -> list pyval) (clusters : list string) (st : state) :
  rows_at path (clusters_done path a r items clusters st) =
  (rows_at path st ++ flat_map (fun c => block (items c)) clusters)%list.
Proof.
  unfold clusters_done. revert st; induction clusters as [|c cs IH]; intros st;
    cbn [fold_left flat_map].
  - rewrite app_nil_r. reflexivity.
  - rewrite IH, rows_at_add_rows, rows_at_fetching, <- app_assoc. reflexivity.
Qed.

Lemma netlog_clusters_done (path : string) (a r : pyval)
  (items : string -> list pyval) (clusters : list string) (st : state) :
  netlog (clusters_done path a r items clusters st) =
  (netlog st ++ map (fun c => fetch_request c a r) clusters)%list.
Proof.
  unfold clusters_done. revert st; induction clusters as [|c cs IH]; intros st;
    cbn [fold_left map].
  - rewrite app_nil_r. reflexivity.
  - rewrite IH, netlog_add_rows, netlog_fetching, <- app_assoc. reflexivity.
Qed.

(** The outer loop on clusters whose fetches all return lists of offerings. *)
Lemma cluster_loop_rows (w : world) (a r : pyval) (path : string)
  (items : string -> list pyval) (clusters : list string) (st : state) :
  fetches_offerings w a r items clusters ->
  for_each clusters (cluster_body w a r path) st =
  (Ok tt, clusters_done path a r items clusters st).
Proof.
  unfold clusters_done. revert st; induction clusters as [|c cs IH]; intros st Hall;
    [reflexivity|].
  cbn [for_each fold_left]. unfold bind. rewrite cluster_body_run.
  destruct (Hall c) as [-> Hoff]; [left; reflexivity|]. cbn [py_iter].
  rewrite for_each_rows by (intros vm Hin; apply catalog_row_offering, Hoff, Hin).
  apply IH. intros c' Hin. apply Hall. right. exact Hin.
Qed.

Lemma block_rows (its : list pyval) :
  (forall vm, In vm its -> is_offering vm) ->
  Forall2 (fun vm r => catalog_row vm = Ok r) its (block its).
Proof.
  induction its as [|vm its IH]; intros Hall; constructor.
  - apply catalog_row_offering, Hall. left. reflexivity.
  - apply IH. intros vm' Hin. apply Hall. right. exact Hin.
Qed.

(** ** The catalog *)

(** Once the file is open, the clusters up to [c] having returned lists of
    offerings, the file holds the header, their blocks in order, and then
    whatever the later clusters added. *)
Lemma create_catalog_prefix_rows (w : world) (a r : pyval) (path : string)
  (items : string -> list pyval) (pre : list string) (c : string)
  (post : list string) (st : state) :
  open_error w path = None ->
  CLUSTERS = (pre ++ c :: post)%list ->
  fetches_offerings w a r items (pre ++ [c])%list ->
  exists later,
    rows_at path (snd (create_catalog w a r path st)) =
    (HEADER :: flat_map (fun c' => block (items c')) pre
       ++ block (items c) ++ later)%list.
Proof.
  intros Hopen Heq Hgood. rewrite create_catalog_run, Hopen.
  replace CLUSTERS with ((pre ++ [c]) ++ post)%list
    by (rewrite Heq, <- app_assoc; reflexivity).
  rewrite for_each_app, (cluster_loop_rows w a r path items) by exact Hgood.
  destruct (for_each post _ _) as [res st'] eqn:Hpost.
  apply cluster_loop_footprint in Hpost as (n & later & _ & Hrows & _).
  exists later.
  assert (Hst' : rows_at path st' =
    (HEADER :: flat_map (fun c' => block (items c')) pre ++ block (items c) ++ later)%list).
  { rewrite Hrows, rows_at_clusters_done, rows_at_header_written, flat_map_app.
    cbn [flat_map app]. rewrite app_nil_r, <- app_assoc. reflexivity. }
  destruct res; exact Hst'.
Qed.

(** C3. For every cluster whose fetch returns a sequence of N offerings
    (its predecessors in the cluster list having been processed likewise),
    [create_catalog] writes exactly N data rows for it, one per offering and
    in the order of the items, right after the rows of the clusters before
    it; nothing is merged or dropped.  When this holds of all clusters the
    file is the header followed by the clusters' blocks in the order of the
    cluster list, and the requests were sent in that order. *)
Theorem create_catalog_rows_per_cluster (w : world) (a r : pyval)
  (path : string) (items : string -> list pyval) (st : state) :
  open_error w path = None ->
  (forall pre c post,
      CLUSTERS = (pre ++ c :: post)%list ->
      fetches_offerings w a r items (pre ++ [c])%list ->
      length (block (items c)) = length (items c) /\
      Forall2 (fun vm row => catalog_row vm = Ok row) (items c) (block (items c)) /\
      exists later,
        rows_at path (snd (create_catalog w a r path st)) =
        (HEADER :: flat_map (fun c' => block (items c')) pre
           ++ block (items c) ++ later)%list)
  /\ (fetches_offerings w a r items CLUSTERS ->
      fst (create_catalog w a r path st) = Ok tt /\
      rows_at path (snd (create_catalog w a r path st)) =
        HEADER :: flat_map (fun c => block (items c)) CLUSTERS /\
      netlog (snd (create_catalog w a r path st)) =
        (netlog st ++ map (fun c => fetch_request c a r) CLUSTERS)%list).
Proof.
  intros Hopen. split.
  - intros pre c post Heq Hgood. split; [apply length_map|]. split.
    + apply block_rows. intros vm Hin. apply (Hgood c); [|exact Hin].
      apply in_or_app. right. left. reflexivity.
    + exact (create_catalog_prefix_rows w a r path items pre c post st Hopen Heq Hgood).
  - intros Hgood. rewrite create_catalog_run, Hopen.
    rewrite (cluster_loop_rows w a r path items) by exact Hgood.
    cbn [fst snd]. split; [reflexivity|]. split.
    + change (rows_at path (log_line _ ?s)) with (rows_at path s).
      rewrite rows_at_clusters_done, rows_at_header_written. reflexivity.
    + change (netlog (log_line _ ?s)) with (netlog s).
      rewrite netlog_clusters_done. reflexivity.
Qed.

Lemma two_cluster_world_fetches :
  fetches_offerings two_cluster_world (PStr "access") (PStr "refresh")
    two_cluster_items CLUSTERS.
Proof.
  intros c [<- | [<- | []]]; (split; [reflexivity|]);
    intros vm [<- | []]; eexists _, _; (split; [reflexivity|]); reflexivity.
Qed.

(** The end-to-end example of the specification: two clusters with one
    offering each, the first without a GPU match, the second a T4. *)
Lemma create_catalog_two_clusters :
  open_error two_cluster_world "denvr/vms.csv" = None /\
  fetches_offerings two_cluster_world (PStr "access") (PStr "refresh")
    two_cluster_items CLUSTERS /\
  length (block (two_cluster_items "Hou1")) = 1 /\
  rows_at "denvr/vms.csv"
    (snd (create_catalog two_cluster_world (PStr "access") (PStr "refresh")
            "denvr/vms.csv" initial_state)) =
  [ HEADER;
    [ PStr "generic-cpu-node"; PStr "Msc1"; PNone; PStr "cpu";
      PFloat 4602678819172646912; PInt 4; PInt 4; PInt 8; PNone; PInt 0 ];
    [ PStr "T4-small"; PStr "Hou1"; PStr "on-demand"; PStr "gpu";
      PFloat 4612811918334230528; PInt 1; PInt 1; PInt 2; PStr "T4"; PInt 16384 ] ].
Proof.
  split; [reflexivity|]. split; [exact two_cluster_world_fetches|].
  destruct (create_catalog_rows_per_cluster two_cluster_world (PStr "access")
              (PStr "refresh") "denvr/vms.csv" two_cluster_items initial_state eq_refl)
    as [Hone Hall].
  split.
  - destruct (Hone ["Msc1"] "Hou1" [] eq_refl two_cluster_world_fetches) as [Hlen _].
    exact Hlen.
  - destruct (Hall two_cluster_world_fetches) as (_ & Hrows & _).
    rewrite Hrows. reflexivity.
Defined.

(** C4, as the code has it.  If the availability fetch for a cluster is
    answered with a client-error or server-error status (4xx or 5xx), the
    run aborts there with [HTTPError] (the specification's FetchError): the
    file holds exactly what it held when the request was sent, and the
    requests sent are those of the clusters up to this one, so nothing is
    fetched or written for a later cluster. *)
Theorem create_catalog_aborts_on_error_status (w : world) (a r : pyval)
  (path : string) (pre : list string) (c : string) (post : list string)
  (resp : response) (st st1 : state) :
  CLUSTERS = (pre ++ c :: post)%list ->
  open_error w path = None ->
  for_each pre (cluster_body w a r path) (header_written path st) = (Ok tt, st1) ->
  server w (fetch_request c a r) = Ok resp ->
  error_status (status_code resp) ->
  create_catalog w a r path st =
    (Raise (HTTPError (status_code resp)), fetching a r c st1) /\
  rows_at path (fetching a r c st1) = rows_at path st1 /\
  netlog (fetching a r c st1) =
    (netlog st ++ map (fun c' => fetch_request c' a r) (pre ++ [c]))%list /\
  forall c', In c' post ->
    ~ In (fetch_request c' a r) (map (fun c' => fetch_request c' a r) (pre ++ [c])).
Proof.
  intros Heq Hopen Hpre Hresp [Hlo Hhi].
  assert (Hfetch : fetch_value w c a r = Raise (HTTPError (status_code resp))).
  { unfold fetch_value. rewrite Hresp. cbn [rbind]. unfold raise_for_status.
    apply Z.leb_le in Hlo. apply Z.ltb_lt in Hhi. rewrite Hlo, Hhi. reflexivity. }
  split; [|split; [reflexivity|split]].
  - rewrite create_catalog_run, Hopen, Heq, for_each_app, Hpre.
    cbn [for_each]. unfold bind. rewrite cluster_body_run, Hfetch. reflexivity.
  - apply cluster_loop_footprint in Hpre as (n & extra & Hnet & _ & Hall).
    rewrite (Hall tt eq_refl) in Hnet.
    rewrite netlog_fetching, Hnet, map_app, <- app_assoc. reflexivity.
  - intros c' Hin Hsent. apply in_map_iff in Hsent as (c0 & Hreq & Hin0).
    apply (f_equal req_url) in Hreq.
    destruct pre as [|p0 [|p1 pre]]; cbn in Heq.
    + injection Heq as <- <-. destruct Hin as [<- | []].
      destruct Hin0 as [<- | []]. discriminate Hreq.
    + injection Heq as <- <- <-. destruct Hin.
    + injection Heq as _ _ Heq. destruct pre; discriminate Heq.
Qed.

(** A run in which the first cluster answers 500. *)
Lemma create_catalog_first_cluster_500 :
  error_status 500 /\
  create_catalog failing_first_world (PStr "access") (PStr "refresh")
    "denvr/vms.csv" initial_state =
  (Raise (HTTPError 500),
   fetching (PStr "access") (PStr "refresh") "Msc1"
     (header_written "denvr/vms.csv" initial_state)) /\
  rows_at "denvr/vms.csv"
    (fetching (PStr "access") (PStr "refresh") "Msc1"
       (header_written "denvr/vms.csv" initial_state)) = [HEADER].
Proof.
  assert (Herr : error_status 500) by (unfold error_status; lia).
  split; [exact Herr|].
  destruct (create_catalog_aborts_on_error_status failing_first_world
              (PStr "access") (PStr "refresh") "denvr/vms.csv" [] "Msc1" ["Hou1"]
              {| status_code := 500; json_body := Some (PDict []) |}
              initial_state (header_written "denvr/vms.csv" initial_state)
              eq_refl eq_refl eq_refl eq_refl Herr) as (Hrun & Hrows & _).
  split; [exact Hrun|]. rewrite Hrows. apply rows_at_header_written.
Defined.

(** A status outside the successful class that is not an error status does
    not abort the run: with 300 for the first cluster, [create_catalog]
    reads the body, goes on to the second cluster and completes. *)
Lemma fetch_status_300_does_not_abort :
  server redirect_first_world (fetch_request "Msc1" (PStr "access") (PStr "refresh")) =
    reply 300 (items_body (PList [PDict cpu_entries])) /\
  ~ success_status 300 /\
  fst (create_catalog redirect_first_world (PStr "access") (PStr "refresh")
         "denvr/vms.csv" initial_state) = Ok tt /\
  In (fetch_request "Hou1" (PStr "access") (PStr "refresh"))
     (netlog (snd (create_catalog redirect_first_world (PStr "access")
                     (PStr "refresh") "denvr/vms.csv" initial_state))) /\
  rows_at "denvr/vms.csv"
    (snd (create_catalog redirect_first_world (PStr "access") (PStr "refresh")
            "denvr/vms.csv" initial_state)) =
  [ HEADER; row_of (PDict cpu_entries); row_of (PDict t4_entries) ].
Proof.
  split; [reflexivity|]. split; [unfold success_status; lia|].
  split; [reflexivity|]. split; [right; left; reflexivity | reflexivity].
Qed.

(** C10. The GPU block needs the configuration to be a string.  For a
    fetched item that is a JSON object whose [configuration] key is absent
    or null, the [in] test is applied to [None], building the row raises
    [TypeError], and the run aborts with it when it reaches the item: the
    rows of the items before it are in the file, nothing follows.  Under
    the precondition that every item is an offering (a string
    configuration) no row raises and the run completes. *)
Theorem missing_configuration_aborts (w : world) (a r : pyval) (path : string) :
  (forall d,
      dict_lookup d "configuration" = None \/
      dict_lookup d "configuration" = Some PNone ->
      catalog_row (PDict d) = Raise TypeError /\
      forall pre c post good rest st st1,
        CLUSTERS = (pre ++ c :: post)%list ->
        open_error w path = None ->
        for_each pre (cluster_body w a r path) (header_written path st) = (Ok tt, st1) ->
        fetch_value w c a r = Ok (PList (good ++ PDict d :: rest)) ->
        (forall vm, In vm good -> is_offering vm) ->
        create_catalog w a r path st =
        (Raise TypeError, add_rows path (block good) (fetching a r c st1)))
  /\ (forall vm, is_offering vm -> exists row, catalog_row vm = Ok row)
  /\ (forall items st,
        open_error w path = None ->
        fetches_offerings w a r items CLUSTERS ->
        fst (create_catalog w a r path st) = Ok tt).
Proof.
  split; [|split].
  - intros d Hcfg.
    assert (Hrow : catalog_row (PDict d) = Raise TypeError).
    { apply catalog_row_raises_iff. split; [reflexivity|].
      destruct Hcfg as [H | H];
        [rewrite (field_none _ _ H) | rewrite (field_some _ _ _ H)]; exact I. }
    split; [exact Hrow|].
    intros pre c post good rest st st1 Heq Hopen Hpre Hfetch Hgood.
    rewrite create_catalog_run, Hopen, Heq, for_each_app, Hpre.
    cbn [for_each]. unfold bind. rewrite cluster_body_run, Hfetch. cbn [py_iter].
    rewrite (for_each_rows_raise path good (PDict d) rest TypeError);
      [reflexivity | | exact Hrow].
    intros vm Hin. apply catalog_row_offering, Hgood, Hin.
  - intros vm Hvm. exists (row_of vm). apply catalog_row_offering, Hvm.
  - intros items st Hopen Hgood. rewrite create_catalog_run, Hopen.
    rewrite (cluster_loop_rows w a r path items) by exact Hgood. reflexivity.
Qed.

(** A run in which the second cluster lists an item with a null
    configuration after one proper offering. *)
Lemma create_catalog_null_configuration :
  dict_lookup null_configuration_entries "configuration" = Some PNone /\
  fst (create_catalog null_configuration_world (PStr "access") (PStr "refresh")
         "denvr/vms.csv" initial_state) = Raise TypeError /\
  rows_at "denvr/vms.csv"
    (snd (create_catalog null_configuration_world (PStr "access") (PStr "refresh")
            "denvr/vms.csv" initial_state)) =
  [ HEADER; row_of (PDict cpu_entries); row_of (PDict t4_entries) ].
Proof.
  split; [reflexivity|].
  destruct (missing_configuration_aborts null_configuration_world (PStr "access")
              (PStr "refresh") "denvr/vms.csv") as [Habort _].
  destruct (Habort null_configuration_entries (or_intror eq_refl)) as [_ Hrun].
  rewrite (Hrun ["Msc1"] "Hou1" [] [PDict t4_entries] [PDict t4_entries]
             initial_state
             (clusters_done "denvr/vms.csv" (PStr "access") (PStr "refresh")
                two_cluster_items ["Msc1"]
                (header_written "denvr/vms.csv" initial_state))
             eq_refl eq_refl eq_refl eq_refl).
  - split; reflexivity.
  - intros vm [<- | []]. eexists _, _. split; reflexivity.
Defined.

(** C1, as the code has it.  For every offering among the fetched items the
    row written for it carries, unmodified and in this order, the values of
    the item's keys [configuration], [cluster], [rpool], [type], [price],
    [available], [count] and [maxCount] ([None] for a key the item lacks),
    followed by GPU type and memory; the Resource Pool column is read from
    the key [rpool].  The row stands in the file at the position of the
    item: after the header and the rows of the items before it. *)
Theorem offering_fields_in_row (d : list (string * pyval)) :
  is_offering (PDict d) ->
  (exists gpu_type gpu_memory,
      catalog_row (PDict d) = Ok (offering_row d gpu_type gpu_memory) /\
      row_of (PDict d) = offering_row d gpu_type gpu_memory)
  /\ forall w a r path items pre c post st i,
      open_error w path = None ->
      CLUSTERS = (pre ++ c :: post)%list ->
      fetches_offerings w a r items (pre ++ [c])%list ->
      nth_error (items c) i = Some (PDict d) ->
      nth_error (rows_at path (snd (create_catalog w a r path st)))
        (1 + length (flat_map (fun c' => block (items c')) pre) + i)
      = Some (row_of (PDict d)).
Proof.
  intros Hvm. split.
  - destruct Hvm as (d' & cfg & [= <-] & Hcfg). unfold row_of.
    rewrite catalog_row_dict, (field_some _ _ _ Hcfg).
    destruct (classify_gpu_total cfg) as (g & m & ->). cbn [rbind].
    exists g, m. split; reflexivity.
  - intros w a r path items pre c post st i Hopen Heq Hgood Hi.
    destruct (create_catalog_prefix_rows w a r path items pre c post st Hopen Heq Hgood)
      as [later ->].
    cbn [Nat.add nth_error].
    rewrite nth_error_app2 by lia.
    replace (length (flat_map (fun c' => block (items c')) pre) + i
             - length (flat_map (fun c' => block (items c')) pre)) with i by lia.
    rewrite nth_error_app1.
    + unfold block. apply map_nth_error, Hi.
    + unfold block. rewrite length_map. apply nth_error_Some. congruence.
Qed.

(** The T4 offering of the second cluster in the two-cluster run: its row
    is the third line of the file. *)
Lemma t4_offering_row_in_file :
  is_offering (PDict t4_entries) /\
  nth_error
    (rows_at "denvr/vms.csv"
       (snd (create_catalog two_cluster_world (PStr "access") (PStr "refresh")
               "denvr/vms.csv" initial_state))) 2
  = Some [ PStr "T4-small"; PStr "Hou1"; PStr "on-demand"; PStr "gpu";
           PFloat 4612811918334230528; PInt 1; PInt 1; PInt 2;
           PStr "T4"; PInt 16384 ].
Proof.
  assert (Hvm : is_offering (PDict t4_entries))
    by (eexists _, _; split; reflexivity).
  split; [exact Hvm|].
  destruct (offering_fields_in_row t4_entries Hvm) as [_ Hfile].
  exact (Hfile two_cluster_world (PStr "access") (PStr "refresh") "denvr/vms.csv"
           two_cluster_items ["Msc1"] "Hou1" [] initial_state 0 eq_refl eq_refl
           two_cluster_world_fetches eq_refl).
Defined.

(** An offering that carries its resource pool under the key
    [resourcePool], as the data model names it: the value does not reach
    the row, whose Resource Pool column is empty. *)
Lemma resource_pool_field_not_in_row :
  is_offering (PDict cpu_entries) /\
  dict_lookup cpu_entries "resourcePool" = Some (PStr "on-demand") /\
  nth_error
    (rows_at "denvr/vms.csv"
       (snd (create_catalog two_cluster_world (PStr "access") (PStr "refresh")
               "denvr/vms.csv" initial_state))) 1
  = Some (row_of (PDict cpu_entries)) /\
  nth_error (row_of (PDict cpu_entries)) 2 = Some PNone /\
  ~ In (PStr "on-demand") (row_of (PDict cpu_entries)).
Proof.
  split; [eexists _, _; split; reflexivity|].
  split; [reflexivity|]. split; [reflexivity|]. split; [reflexivity|].
  cbn. intros H. repeat (destruct H as [H | H]; [discriminate H|]). exact H.
Qed.

Lemma scan_gpu_keys_none (configuration : string) (keys : list string) :
  (forall k, In k keys -> ~ substring_of k configuration) ->
  scan_gpu_keys keys (PStr configuration) = Ok None.
Proof.
  induction keys as [|k keys IH]; intros Hnone; [reflexivity|].
  cbn [scan_gpu_keys py_contains rbind].
  replace (str_contains k configuration) with false.
  - apply IH. intros k' Hin. apply Hnone. right. exact Hin.
  - symmetry. apply str_contains_false, Hnone. left. reflexivity.
Qed.

(** C9. The GENERAL entry of the table is asymmetric.  For an offering
    whose configuration contains "GENERAL" and none of the keys before it,
    the row written has GPU_Type "GENERAL" and GPU_Memory(MiB) [None], the
    table's entry, not 0; for a configuration that contains no key at all,
    GPU_Type is [None] and GPU_Memory(MiB) is 0. *)
Theorem general_gpu_memory_is_none (path : string) (d : list (string * pyval))
  (cfg : string) (st : state) :
  dict_lookup d "configuration" = Some (PStr cfg) ->
  (substring_of "GENERAL" cfg ->
   (forall k, In k (keys_before "GENERAL" (dict_keys GPU_TO_MEMORY)) ->
              ~ substring_of k cfg) ->
   vm_body path (PDict d) st =
     (Ok tt, add_row path (offering_row d (Some "GENERAL") PNone) st) /\
   nth_error (offering_row d (Some "GENERAL") PNone) 8 = Some (PStr "GENERAL") /\
   nth_error (offering_row d (Some "GENERAL") PNone) 9 = Some PNone /\
   PNone <> PInt 0)
  /\ ((forall k, In k (dict_keys GPU_TO_MEMORY) -> ~ substring_of k cfg) ->
      vm_body path (PDict d) st =
        (Ok tt, add_row path (offering_row d None (PInt 0)) st) /\
      nth_error (offering_row d None (PInt 0)) 8 = Some PNone /\
      nth_error (offering_row d None (PInt 0)) 9 = Some (PInt 0)).
Proof.
  intros Hcfg. split.
  - intros Hgen Hbefore. split; [|repeat split; discriminate].
    rewrite vm_body_run, catalog_row_dict, (field_some _ _ _ Hcfg).
    unfold classify_gpu.
    rewrite (scan_gpu_keys_at cfg (dict_keys GPU_TO_MEMORY) "GENERAL");
      [reflexivity | cbn; tauto | exact Hgen | exact Hbefore].
  - intros Hnone. split; [|split; reflexivity].
    rewrite vm_body_run, catalog_row_dict, (field_some _ _ _ Hcfg).
    unfold classify_gpu. rewrite (scan_gpu_keys_none cfg _ Hnone). reflexivity.
Qed.

(** The two cases on concrete offerings. *)
Lemma general_and_unmatched_offerings :
  (substring_of "GENERAL" "GENERAL-cpu-node" /\
   vm_body "denvr/vms.csv" (PDict general_entries) initial_state =
     (Ok tt, add_row "denvr/vms.csv"
               [ PStr "GENERAL-cpu-node"; PStr "Msc1"; PNone; PNone; PNone;
                 PNone; PNone; PNone; PStr "GENERAL"; PNone ] initial_state))
  /\ vm_body "denvr/vms.csv" (PDict cpu_entries) initial_state =
       (Ok tt, add_row "denvr/vms.csv"
                 [ PStr "generic-cpu-node"; PStr "Msc1"; PNone; PStr "cpu";
                   PFloat 4602678819172646912; PInt 4; PInt 4; PInt 8;
                   PNone; PInt 0 ] initial_state).
Proof.
  assert (Hno : forall (cfg : string) (keys : list string),
             forallb (fun k => negb (str_contains k cfg)) keys = true ->
             forall k, In k keys -> ~ substring_of k cfg).
  { intros cfg keys Hall k Hin. apply str_contains_false.
    rewrite forallb_forall in Hall. apply Hall in Hin.
    destruct (str_contains k cfg); [discriminate Hin | reflexivity]. }
  assert (Hgen : substring_of "GENERAL" "GENERAL-cpu-node")
    by (apply str_contains_iff; reflexivity).
  split; [split; [exact Hgen|]|].
  - destruct (general_gpu_memory_is_none "denvr/vms.csv" general_entries
                "GENERAL-cpu-node" initial_state eq_refl) as [Hgeneral _].
    destruct (Hgeneral Hgen
                (Hno "GENERAL-cpu-node"
                   (keys_before "GENERAL" (dict_keys GPU_TO_MEMORY)) eq_refl))
      as [Hrun _]. exact Hrun.
  - destruct (general_gpu_memory_is_none "denvr/vms.csv" cpu_entries
                "generic-cpu-node" initial_state eq_refl) as [_ Hunmatched].
    destruct (Hunmatched
                (Hno "generic-cpu-node" (dict_keys GPU_TO_MEMORY) eq_refl))
      as [Hrun _]. exact Hrun.
Defined.

(** ** Fetching *)

Lemma fetch_vms_for_cluster_run (w : world) (cluster : string) (a r : pyval)
  (st : state) :
  fetch_vms_for_cluster w cluster a r st =
  (fetch_value w cluster a r, log_request (fetch_request cluster a r) st).
Proof.
  unfold fetch_vms_for_cluster, fetch_value, bind, send, lift.
  destruct (server w (fetch_request cluster a r)) as [resp|e]; [|reflexivity].
  cbn [rbind]. destruct (raise_for_status resp) as [[]|e]; [|reflexivity].
  cbn [rbind]. destruct (response_json resp); reflexivity.
Qed.

Lemma raise_for_status_success (resp : response) :
  success_status (status_code resp) -> raise_for_status resp = Ok tt.
Proof.
  intros [_ Hhi]. unfold raise_for_status.
  replace (400 <=? status_code resp)%Z with false by (symmetry; apply Z.leb_gt; lia).
  reflexivity.
Qed.

Lemma raise_for_status_error (resp : response) :
  error_status (status_code resp) ->
  raise_for_status resp = Raise (HTTPError (status_code resp)).
Proof.
  intros [Hlo Hhi]. unfold raise_for_status.
  apply Z.leb_le in Hlo. apply Z.ltb_lt in Hhi. rewrite Hlo, Hhi. reflexivity.
Qed.

(** C5, as the code has it.  For a successful (2xx) fetch response with a
    JSON body: when the path result.items is present the function returns
    exactly the value found there; when the body is an object without the
    key [result], or with a [result] that is an object without the key
    [items], it returns the empty list; a body that is not an object, or
    whose [result] is present but not an object (null, say), raises
    [AttributeError]. *)
Theorem fetch_result_items (w : world) (cluster : string) (a r : pyval)
  (resp : response) (body : pyval) (st : state) :
  server w (fetch_request cluster a r) = Ok resp ->
  success_status (status_code resp) ->
  json_body resp = Some body ->
  (forall items,
      json_path body ["result"; "items"] = Some items ->
      fst (fetch_vms_for_cluster w cluster a r st) = Ok items)
  /\ (forall d,
        body = PDict d ->
        dict_lookup d "result" = None ->
        fst (fetch_vms_for_cluster w cluster a r st) = Ok (PList []))
  /\ (forall d res,
        body = PDict d ->
        dict_lookup d "result" = Some (PDict res) ->
        dict_lookup res "items" = None ->
        fst (fetch_vms_for_cluster w cluster a r st) = Ok (PList []))
  /\ (forall d v,
        body = PDict d ->
        dict_lookup d "result" = Some v ->
        (forall res, v <> PDict res) ->
        fst (fetch_vms_for_cluster w cluster a r st) = Raise AttributeError)
  /\ ((forall d, body <> PDict d) ->
      fst (fetch_vms_for_cluster w cluster a r st) = Raise AttributeError).
Proof.
  intros Hresp Hok Hbody. rewrite fetch_vms_for_cluster_run. cbn [fst].
  unfold fetch_value. rewrite Hresp. cbn [rbind].
  rewrite (raise_for_status_success resp Hok). cbn [rbind].
  unfold response_json. rewrite Hbody. cbn [rbind]. unfold result_items.
  repeat split.
  - intros items Hpath. cbn [json_path] in Hpath.
    destruct body as [| | | | | |d]; try discriminate Hpath.
    cbn [py_get rbind]. destruct (dict_lookup d "result") as [res|]; [|discriminate Hpath].
    destruct res as [| | | | | |res]; try discriminate Hpath.
    cbn. destruct (dict_lookup res "items"); [|discriminate Hpath].
    injection Hpath as ->. reflexivity.
  - intros d -> Hres. cbn [py_get rbind]. rewrite Hres. reflexivity.
  - intros d res -> Hres Hitems. cbn [py_get rbind]. rewrite Hres. cbn.
    rewrite Hitems. reflexivity.
  - intros d v -> Hres Hv. cbn [py_get rbind]. rewrite Hres.
    destruct v; try reflexivity. exfalso. eapply Hv. reflexivity.
  - intros Hnot. destruct body; try reflexivity. exfalso. eapply Hnot. reflexivity.
Qed.

(** A 200 response whose [result] has no [items]: no offerings, no error. *)
Lemma fetch_without_items_key :
  success_status 200 /\
  fst (fetch_vms_for_cluster no_items_world "Msc1" (PStr "access") (PStr "refresh")
         initial_state) = Ok (PList []).
Proof.
  assert (Hok : success_status 200) by (unfold success_status; lia).
  split; [exact Hok|].
  destruct (fetch_result_items no_items_world "Msc1" (PStr "access") (PStr "refresh")
              {| status_code := 200;
                 json_body := Some (PDict [ ("result", PDict [ ("totalCount", PInt 0) ]) ]) |}
              (PDict [ ("result", PDict [ ("totalCount", PInt 0) ]) ])
              initial_state eq_refl Hok eq_refl) as (_ & _ & Hempty & _).
  exact (Hempty _ _ eq_refl eq_refl eq_refl).
Defined.

(** A 200 response whose body has no result.items path because [result] is
    null: the function raises instead of returning the empty sequence. *)
Lemma fetch_null_result_raises :
  server null_result_world (fetch_request "Msc1" (PStr "access") (PStr "refresh")) =
    reply 200 (PDict [ ("result", PNone); ("success", PBool true) ]) /\
  success_status 200 /\
  json_path (PDict [ ("result", PNone); ("success", PBool true) ])
    ["result"; "items"] = None /\
  fst (fetch_vms_for_cluster null_result_world "Msc1" (PStr "access") (PStr "refresh")
         initial_state) = Raise AttributeError.
Proof.
  split; [reflexivity|]. split; [unfold success_status; lia|].
  split; reflexivity.
Qed.

(** ** Authentication *)

Lemma authenticate_run (w : world) (username password : string) (st : state) :
  authenticate w username password st =
  (auth_value w username password, log_request (auth_request username password) st).
Proof.
  unfold authenticate, auth_value, bind, send, lift, ret.
  destruct (server w (auth_request username password)) as [resp|e]; [|reflexivity].
  cbn [rbind]. destruct (raise_for_status resp) as [[]|e]; [|reflexivity].
  cbn [rbind]. destruct (response_json resp) as [auth_data|e]; [|reflexivity].
  cbn [rbind]. destruct (py_getitem auth_data "result") as [res|e]; [|reflexivity].
  cbn [rbind]. destruct (py_getitem res "accessToken"); [|reflexivity].
  cbn [rbind]. destruct (py_getitem res "refreshToken"); reflexivity.
Qed.

(** C8, as the code has it.  [authenticate] sends one POST.  On a
    successful (2xx) response whose JSON body holds result.accessToken and
    result.refreshToken it returns exactly that pair; on a successful
    response that lacks one of them it raises [KeyError] or [TypeError], and
    on one whose body is not JSON [JSONDecodeError] (the specification's
    MalformedResponseError); on a client-error or server-error status (4xx
    or 5xx) it raises [HTTPError] (the specification's AuthenticationError).
    In every case exactly one request has been sent: there is no retry. *)
Theorem authenticate_result (w : world) (username password : string)
  (resp : response) (st : state) :
  server w (auth_request username password) = Ok resp ->
  netlog (snd (authenticate w username password st)) =
    (netlog st ++ [auth_request username password])%list
  /\ (success_status (status_code resp) ->
      (forall body access_token refresh_token,
          json_body resp = Some body ->
          json_path body ["result"; "accessToken"] = Some access_token ->
          json_path body ["result"; "refreshToken"] = Some refresh_token ->
          fst (authenticate w username password st) = Ok (access_token, refresh_token))
      /\ (forall body,
            json_body resp = Some body ->
            json_path body ["result"; "accessToken"] = None \/
            json_path body ["result"; "refreshToken"] = None ->
            exists e,
              fst (authenticate w username password st) = Raise e /\
              (e = TypeError \/ exists k, e = KeyError k))
      /\ (json_body resp = None ->
          fst (authenticate w username password st) = Raise JSONDecodeError))
  /\ (error_status (status_code resp) ->
      fst (authenticate w username password st) = Raise (HTTPError (status_code resp))).
Proof.
  intros Hresp. rewrite authenticate_run. cbn [fst snd]. split; [reflexivity|].
  unfold auth_value. rewrite Hresp. cbn [rbind]. split.
  - intros Hok. rewrite (raise_for_status_success resp Hok). cbn [rbind].
    unfold response_json. repeat split.
    + intros body a t -> Ha Ht. cbn [rbind]. cbn [json_path] in Ha, Ht.
      destruct body as [| | | | | |d]; try discriminate Ha. cbn [py_getitem].
      destruct (dict_lookup d "result") as [res|]; [|discriminate Ha]. cbn [rbind].
      destruct res as [| | | | | |res]; try discriminate Ha. cbn [py_getitem].
      destruct (dict_lookup res "accessToken"); [|discriminate Ha].
      destruct (dict_lookup res "refreshToken"); [|discriminate Ht].
      injection Ha as ->. injection Ht as ->. reflexivity.
    + intros body -> Hmissing. cbn [rbind]. cbn [json_path] in Hmissing.
      destruct body as [| | | | | |d]; try (eexists; split; [reflexivity | left; reflexivity]).
      cbn [py_getitem].
      destruct (dict_lookup d "result") as [res|];
        [|eexists; split; [reflexivity | right; eexists; reflexivity]].
      cbn [rbind].
      destruct res as [| | | | | |res]; try (eexists; split; [reflexivity | left; reflexivity]).
      cbn [py_getitem].
      destruct (dict_lookup res "accessToken");
        [|eexists; split; [reflexivity | right; eexists; reflexivity]].
      cbn [rbind].
      destruct (dict_lookup res "refreshToken");
        [|eexists; split; [reflexivity | right; eexists; reflexivity]].
      destruct Hmissing as [H | H]; discriminate H.
    + intros ->. reflexivity.
  - intros Herr. rewrite (raise_for_status_error resp Herr). reflexivity.
Qed.

(** The mocked exchange of the specification, and a rejected login. *)
Lemma authenticate_known_pair :
  (success_status 200 /\
   fst (authenticate two_cluster_world "user@example.com" "secret" initial_state) =
     Ok (PStr "access", PStr "refresh"))
  /\ (error_status 401 /\
      authenticate rejected_auth_world "user@example.com" "secret" initial_state =
        (Raise (HTTPError 401),
         log_request (auth_request "user@example.com" "secret") initial_state)).
Proof.
  assert (Hok : success_status 200) by (unfold success_status; lia).
  assert (Herr : error_status 401) by (unfold error_status; lia).
  split; (split; [assumption|]).
  - destruct (authenticate_result two_cluster_world "user@example.com" "secret"
                {| status_code := 200;
                   json_body := Some (tokens_body (PStr "access") (PStr "refresh")) |}
                initial_state eq_refl) as (_ & Hsuccess & _).
    destruct (Hsuccess Hok) as (Hpair & _).
    exact (Hpair _ _ _ eq_refl eq_refl eq_refl).
  - destruct (authenticate_result rejected_auth_world "user@example.com" "secret"
                {| status_code := 401; json_body := Some (PDict [ ("result", PNone) ]) |}
                initial_state eq_refl) as (_ & _ & Hfail).
    rewrite authenticate_run. rewrite authenticate_run in Hfail.
    cbn [fst] in Hfail. rewrite (Hfail Herr). reflexivity.
Defined.

(** A status outside the successful class that is not an error status does
    not make [authenticate] raise: with 300 and a body that holds tokens
    it returns them. *)
Lemma authenticate_status_300_returns :
  server redirect_auth_world (auth_request "user@example.com" "secret") =
    reply 300 (tokens_body (PStr "access") (PStr "refresh")) /\
  ~ success_status 300 /\
  fst (authenticate redirect_auth_world "user@example.com" "secret" initial_state) =
    Ok (PStr "access", PStr "refresh").
Proof.
  split; [reflexivity|]. split; [unfold success_status; lia | reflexivity].
Qed.

(** ** Credentials *)

Lemma py_or_resolved (cli env : option string) (v : string) :
  py_or cli env = Some v <-> resolved cli env v.
Proof.
  unfold py_or, resolved. destruct cli as [[|c s]|]; cbn [truthy].
  - split.
    + intros H. right. split; [right; reflexivity | exact H].
    + intros [[[= <-] Hne] | [_ H]]; [contradiction Hne; reflexivity | exact H].
  - split.
    + intros [= <-]. left. split; [reflexivity | discriminate].
    + intros [[H _] | [[H | H] _]]; [exact H | discriminate H | discriminate H].
  - split.
    + intros H. right. split; [left; reflexivity | exact H].
    + intros [[H _] | [_ H]]; [discriminate H | exact H].
Qed.

Lemma py_or_unresolved (cli env : option string) :
  py_or cli env = None <-> unresolved cli env.
Proof.
  unfold py_or, unresolved. destruct cli as [[|c s]|]; cbn [truthy].
  - split; [intros H; split; [right; reflexivity | exact H] | intros [_ H]; exact H].
  - split; [discriminate | intros [[H | H] _]; discriminate H].
  - split; [intros H; split; [left; reflexivity | exact H] | intros [_ H]; exact H].
Qed.

(** What [get_credentials] returns determines how each credential was
    resolved. *)
Lemma get_credentials_inv (w : world) (args : namespace) (u p : string) :
  get_credentials w args = Ok (u, p) ->
  resolved (args_username args) (environ w !! "DENVR_CLOUD_USER_EMAIL") u /\
  resolved (args_password args) (environ w !! "DENVR_CLOUD_PASSWORD") p.
Proof.
  unfold get_credentials. rewrite <- !py_or_resolved.
  destruct (py_or (args_username args) _) as [u'|]; [|discriminate].
  destruct (py_or (args_password args) _) as [p'|]; [|discriminate].
  intros [= -> ->]. split; reflexivity.
Qed.

(** C6, as the code has it.  Each credential is resolved on its own: a
    non-empty command-line value wins over the environment variable,
    whether or not that is set; the environment variable is used when the
    command-line value is absent or empty.  When both credentials resolve,
    [get_credentials] returns the resolved pair. *)
Theorem get_credentials_precedence (w : world) (args : namespace) (u p : string) :
  resolved (args_username args) (environ w !! "DENVR_CLOUD_USER_EMAIL") u ->
  resolved (args_password args) (environ w !! "DENVR_CLOUD_PASSWORD") p ->
  get_credentials w args = Ok (u, p).
Proof.
  intros Hu Hp. apply py_or_resolved in Hu, Hp.
  unfold get_credentials. rewrite Hu, Hp. reflexivity.
Qed.

(** Username on the command line and in the environment, password in the
    environment only. *)
Lemma get_credentials_explicit_username :
  environ credentials_world !! "DENVR_CLOUD_USER_EMAIL" = Some "env-user@example.com" /\
  get_credentials credentials_world explicit_args =
    Ok ("cli-user@example.com", "env-secret").
Proof.
  split; [reflexivity|].
  apply get_credentials_precedence.
  - left. split; [reflexivity | discriminate].
  - right. split; [left; reflexivity | reflexivity].
Defined.

(** An explicit but empty [--username] loses against the environment. *)
Lemma empty_explicit_username_loses :
  args_username empty_username_args = Some "" /\
  environ credentials_world !! "DENVR_CLOUD_USER_EMAIL" = Some "env-user@example.com" /\
  get_credentials credentials_world empty_username_args =
    Ok ("env-user@example.com", "cli-secret").
Proof. repeat split. Qed.

(** C7. When, after the command line and the environment have both been
    consulted, the username or the password is still absent,
    [get_credentials] fails its assertion ([AssertionError], the
    specification's MissingCredentialsError), and the run of the script
    stops with an exception without having sent any request: with that
    [AssertionError], unless creating the output directory had failed
    before. *)
Theorem missing_credentials_fail_fast (w : world) (args : namespace) (st : state) :
  unresolved (args_username args) (environ w !! "DENVR_CLOUD_USER_EMAIL") \/
  unresolved (args_password args) (environ w !! "DENVR_CLOUD_PASSWORD") ->
  get_credentials w args = Raise AssertionError /\
  (exists e, fst (main w args st) = Raise e) /\
  snd (main w args st) = st /\
  netlog (snd (main w args st)) = netlog st /\
  (makedirs_error w (dirname (args_output args)) = None ->
   main w args st = (Raise AssertionError, st)).
Proof.
  intros Hmissing.
  assert (Hcred : get_credentials w args = Raise AssertionError).
  { unfold get_credentials. destruct Hmissing as [H | H];
      apply py_or_unresolved in H; rewrite H; [reflexivity|].
    destruct (py_or (args_username args) _); reflexivity. }
  split; [exact Hcred|].
  unfold main, bind, makedirs, lift. rewrite Hcred.
  destruct (makedirs_error w (dirname (args_output args))) as [e|]; cbn [fst snd].
  - repeat split; [eexists; reflexivity | discriminate].
  - repeat split. eexists; reflexivity.
Qed.

(** No credentials on the command line, none in the environment. *)
Lemma main_without_credentials :
  unresolved (args_username no_args)
    (environ two_cluster_world !! "DENVR_CLOUD_USER_EMAIL") /\
  main two_cluster_world no_args initial_state = (Raise AssertionError, initial_state) /\
  netlog (snd (main two_cluster_world no_args initial_state)) = [].
Proof.
  assert (Hu : unresolved (args_username no_args)
                 (environ two_cluster_world !! "DENVR_CLOUD_USER_EMAIL"))
    by (split; [left; reflexivity | reflexivity]).
  split; [exact Hu|].
  destruct (missing_credentials_fail_fast two_cluster_world no_args initial_state
              (or_introl Hu)) as (_ & _ & _ & Hnet & Hrun).
  split; [exact (Hrun eq_refl) | exact Hnet].
Defined.

(** With credentials the whole script runs: one POST, then one GET per
    cluster, and the catalog is written. *)
Lemma main_with_credentials :
  fst (main credentials_world explicit_args initial_state) = Ok tt /\
  netlog (snd (main credentials_world explicit_args initial_state)) =
    [ auth_request "cli-user@example.com" "env-secret";
      fetch_request "Msc1" (PStr "access") (PStr "refresh");
      fetch_request "Hou1" (PStr "access") (PStr "refresh") ] /\
  rows_at DEFAULT_OUTPUT_PATH
    (snd (main credentials_world explicit_args initial_state)) =
    [ HEADER; row_of (PDict cpu_entries); row_of (PDict t4_entries) ].
Proof. repeat split. Qed.

(** * Further properties of the script *)

(** ** The loops against their pure view *)

Lemma vm_loop_replay (path : string) (items : list pyval) (st : state) :
  for_each items (vm_body path) st =
  (snd (item_rows items), add_rows path (fst (item_rows items)) st).
Proof.
  revert st; induction items as [|vm items IH]; intros st; [reflexivity|].
  cbn [for_each item_rows]. unfold bind. rewrite vm_body_run.
  destruct (catalog_row vm) as [r0|e]; [|reflexivity].
  rewrite IH. destruct (item_rows items) as [rs res]. reflexivity.
Qed.

Lemma cluster_body_replay (w : world) (a r : pyval) (path cluster : string)
  (st : state) :
  cluster_body w a r path cluster st =
  (snd (cluster_outcome w a r cluster),
   add_rows path (fst (cluster_outcome w a r cluster)) (fetching a r cluster st)).
Proof.
  rewrite cluster_body_run. unfold cluster_outcome.
  destruct (fetch_value w cluster a r) as [vms|e]; [|reflexivity].
  destruct (py_iter vms) as [items|e]; [|reflexivity].
  apply vm_loop_replay.
Qed.

Lemma cluster_loop_replay (w : world) (a r : pyval) (path : string)
  (clusters : list string) (st : state) :
  for_each clusters (cluster_body w a r path) st =
  (snd (catalog_trace w a r clusters),
   replay path a r (fst (catalog_trace w a r clusters)) st).
Proof.
  revert st; induction clusters as [|c cs IH]; intros st; [reflexivity|].
  cbn [for_each catalog_trace]. unfold bind. rewrite cluster_body_replay.
  destruct (cluster_outcome w a r c) as [rows [[]|e]]; cbn [fst snd]; [|reflexivity].
  rewrite IH. destruct (catalog_trace w a r cs) as [tr res]. reflexivity.
Qed.

(** *** What a replay does to each part of the state *)


Lemma files_add_rows_other (path p : string) (rs : list row) (st : state) :
  p <> path -> files (add_rows path rs st) !! p = files st !! p.
Proof.
  intros Hne. unfold add_rows. revert st; induction rs as [|r0 rs IH]; intros st;
    cbn [fold_left]; [reflexivity|].
  rewrite IH. unfold add_row. cbn [files]. apply lookup_insert_ne. congruence.
Qed.

Lemma rows_at_replay (path : string) (a r : pyval)
  (trace : list (string * list row)) (st : state) :
  rows_at path (replay path a r trace st) =
  (rows_at path st ++ concat (map snd trace))%list.
Proof.
  unfold replay. revert st; induction trace as [|[c rows] tr IH]; intros st;
    cbn [fold_left map concat fst snd].
  - rewrite app_nil_r. reflexivity.
  - rewrite IH, rows_at_add_rows, rows_at_fetching, <- app_assoc. reflexivity.
Qed.



Lemma files_replay_other (path p : string) (a r : pyval)
  (trace : list (string * list row)) (st : state) :
  p <> path -> files (replay path a r trace st) !! p = files st !! p.
Proof.
  intros Hne. unfold replay. revert st; induction trace as [|[c rows] tr IH];
    intros st; cbn [fold_left fst snd]; [reflexivity|].
  rewrite IH, files_add_rows_other by exact Hne. reflexivity.
Qed.

(** *** What a trace can be *)


Lemma catalog_row_length (vm : pyval) (r : row) :
  catalog_row vm = Ok r -> length r = 10.
Proof.
  destruct vm as [| | | | | |d]; try discriminate.
  rewrite catalog_row_dict.
  destruct (classify_gpu (field d "configuration")) as [[g m]|e]; [|discriminate].
  intros [= <-]. reflexivity.
Qed.

Lemma item_rows_length (items : list pyval) :
  Forall (fun r => length r = 10) (fst (item_rows items)).
Proof.
  induction items as [|vm items IH]; cbn [item_rows]; [constructor|].
  destruct (catalog_row vm) as [r0|e] eqn:Hrow; [|constructor].
  destruct (item_rows items) as [rs res]. cbn [fst] in *.
  constructor; [exact (catalog_row_length vm r0 Hrow) | exact IH].
Qed.

Lemma catalog_trace_length (w : world) (a r : pyval) (clusters : list string) :
  Forall (fun r => length r = 10)
    (concat (map snd (fst (catalog_trace w a r clusters)))).
Proof.
  assert (Hc : forall c, Forall (fun r0 => length r0 = 10) (fst (cluster_outcome w a r c))).
  { intros c. unfold cluster_outcome.
    destruct (fetch_value w c a r) as [vms|e]; [|constructor].
    destruct (py_iter vms) as [items|e]; [apply item_rows_length | constructor]. }
  induction clusters as [|c cs IH]; cbn [catalog_trace]; [constructor|].
  specialize (Hc c). destruct (cluster_outcome w a r c) as [rows [[]|e]]; cbn [fst] in Hc.
  - destruct (catalog_trace w a r cs) as [tr res]. cbn [fst snd map concat] in *.
    apply Forall_app. split; assumption.
  - cbn. rewrite app_nil_r. exact Hc.
Qed.

(** ** [create_catalog] on any world *)

Lemma files_header_written_other (path p : string) (st : state) :
  p <> path -> files (header_written path st) !! p = files st !! p.
Proof.
  intros Hne. unfold header_written, add_row, truncate. cbn [files].
  rewrite !lookup_insert_ne by congruence. reflexivity.
Qed.

(** X1. The output file is overwritten: once it can be opened, what the
    run leaves in it, and how the run ends, do not depend on the state the
    run started from, and the file begins with the header row, whether the
    run completes or aborts. *)
Theorem create_catalog_overwrites (w : world) (a r : pyval) (path : string)
  (st st' : state) :
  open_error w path = None ->
  fst (create_catalog w a r path st) = fst (create_catalog w a r path st') /\
  rows_at path (snd (create_catalog w a r path st)) =
    rows_at path (snd (create_catalog w a r path st')) /\
  exists data, rows_at path (snd (create_catalog w a r path st)) = HEADER :: data.
Proof.
  intros Hopen. rewrite !create_catalog_run, Hopen, !cluster_loop_replay.
  destruct (catalog_trace w a r CLUSTERS) as [tr [[]|e]]; cbn [fst snd];
    (split; [reflexivity|]);
    change (rows_at path (log_line ?l ?s)) with (rows_at path s);
    rewrite !rows_at_replay, !rows_at_header_written;
    (split; [reflexivity | eexists; reflexivity]).
Qed.

(** A run over a state in which the output file already has a row. *)
Lemma create_catalog_over_stale_file :
  rows_at "denvr/vms.csv" stale_state = [[PStr "stale"]] /\
  rows_at "denvr/vms.csv"
    (snd (create_catalog two_cluster_world (PStr "access") (PStr "refresh")
            "denvr/vms.csv" stale_state)) =
  [ HEADER; row_of (PDict cpu_entries); row_of (PDict t4_entries) ].
Proof.
  split; [reflexivity|].
  destruct (create_catalog_overwrites two_cluster_world (PStr "access") (PStr "refresh")
              "denvr/vms.csv" stale_state initial_state eq_refl) as (_ & Hrows & _).
  rewrite Hrows. reflexivity.
Defined.

(** X2. [create_catalog] writes to the file at [output_path] only: every
    other file is as it was, however the run ends. *)
Theorem create_catalog_other_files (w : world) (a r : pyval) (path p : string)
  (st : state) :
  p <> path ->
  files (snd (create_catalog w a r path st)) !! p = files st !! p.
Proof.
  intros Hne. rewrite create_catalog_run.
  destruct (open_error w path); [reflexivity|].
  rewrite cluster_loop_replay.
  destruct (catalog_trace w a r CLUSTERS) as [tr [[]|e]]; cbn [fst snd];
    change (files (log_line ?l ?s)) with (files s);
    rewrite files_replay_other, files_header_written_other by exact Hne;
    reflexivity.
Qed.

Lemma create_catalog_keeps_notes :
  "notes.txt" <> "denvr/vms.csv" /\
  files (snd (create_catalog two_cluster_world (PStr "access") (PStr "refresh")
                "denvr/vms.csv" stale_state)) !! "notes.txt" = Some [[PStr "keep"]].
Proof.
  assert (Hne : "notes.txt" <> "denvr/vms.csv") by discriminate.
  split; [exact Hne|].
  rewrite (create_catalog_other_files two_cluster_world (PStr "access") (PStr "refresh")
             "denvr/vms.csv" "notes.txt" stale_state Hne).
  reflexivity.
Defined.



(** X4. Whatever makes the fetch of a cluster fail (a transport error, an
    error status, a body that is not JSON or not an object), the run
    aborts with that exception right after the request: the file is as the
    earlier clusters left it, and the requests sent are those of the
    clusters up to this one. *)
Theorem create_catalog_aborts_on_fetch_failure (w : world) (a r : pyval)
  (path : string) (pre : list string) (c : string) (post : list string)
  (e : exn) (st st1 : state) :
  CLUSTERS = (pre ++ c :: post)%list ->
  open_error w path = None ->
  for_each pre (cluster_body w a r path) (header_written path st) = (Ok tt, st1) ->
  fst (fetch_vms_for_cluster w c a r (log_line (announcement c) st1)) = Raise e ->
  create_catalog w a r path st = (Raise e, fetching a r c st1) /\
  rows_at path (fetching a r c st1) = rows_at path st1 /\
  netlog (fetching a r c st1) =
    (netlog st ++ map (fun c' => fetch_request c' a r) (pre ++ [c]))%list.
Proof.
  intros Heq Hopen Hpre Hfetch. rewrite fetch_vms_for_cluster_run in Hfetch.
  cbn [fst] in Hfetch. split; [|split; [reflexivity|]].
  - rewrite create_catalog_run, Hopen, Heq, for_each_app, Hpre.
    cbn [for_each]. unfold bind. rewrite cluster_body_run, Hfetch. reflexivity.
  - apply cluster_loop_footprint in Hpre as (n & extra & Hnet & _ & Hall).
    rewrite (Hall tt eq_refl) in Hnet.
    rewrite netlog_fetching, Hnet, map_app, <- app_assoc. reflexivity.
Qed.

(** The connection to the second cluster fails: the run ends with
    [ConnectionError], the row of the first cluster is in the file. *)
Lemma create_catalog_unreachable_second :
  fst (create_catalog unreachable_second_world (PStr "access") (PStr "refresh")
         "denvr/vms.csv" initial_state) = Raise ConnectionError /\
  rows_at "denvr/vms.csv"
    (snd (create_catalog unreachable_second_world (PStr "access") (PStr "refresh")
            "denvr/vms.csv" initial_state)) =
  [ HEADER; row_of (PDict cpu_entries) ].
Proof.
  destruct (create_catalog_aborts_on_fetch_failure unreachable_second_world
              (PStr "access") (PStr "refresh") "denvr/vms.csv" ["Msc1"] "Hou1" []
              ConnectionError initial_state
              (clusters_done "denvr/vms.csv" (PStr "access") (PStr "refresh")
                 two_cluster_items ["Msc1"]
                 (header_written "denvr/vms.csv" initial_state))
              eq_refl eq_refl eq_refl eq_refl) as (Hrun & Hrows & _).
  rewrite Hrun. cbn [fst snd]. split; [reflexivity|]. rewrite Hrows. reflexivity.
Defined.

(** X5. The file is rectangular: after a run that could open it, every
    row in it has as many cells as the header, ten, also when the run
    aborted half-way. *)
Theorem create_catalog_rows_rectangular (w : world) (a r : pyval)
  (path : string) (st : state) (line : row) :
  open_error w path = None ->
  In line (rows_at path (snd (create_catalog w a r path st))) ->
  length line = length HEADER.
Proof.
  intros Hopen. rewrite create_catalog_run, Hopen, cluster_loop_replay.
  pose proof (catalog_trace_length w a r CLUSTERS) as Hlen.
  destruct (catalog_trace w a r CLUSTERS) as [tr [[]|e]]; cbn [fst snd] in *;
    change (rows_at path (log_line ?l ?s)) with (rows_at path s);
    rewrite rows_at_replay, rows_at_header_written;
    (intros [<- | Hin]; [reflexivity|]);
    rewrite List.Forall_forall in Hlen; exact (Hlen line Hin).
Qed.

Lemma aborted_run_rows_rectangular :
  In (row_of (PDict t4_entries))
    (rows_at "denvr/vms.csv"
       (snd (create_catalog null_configuration_world (PStr "access") (PStr "refresh")
               "denvr/vms.csv" initial_state))) /\
  length (row_of (PDict t4_entries)) = 10.
Proof.
  assert (Hin : In (row_of (PDict t4_entries))
    (rows_at "denvr/vms.csv"
       (snd (create_catalog null_configuration_world (PStr "access") (PStr "refresh")
               "denvr/vms.csv" initial_state))))
    by (right; right; left; reflexivity).
  split; [exact Hin|].
  exact (create_catalog_rows_rectangular null_configuration_world (PStr "access")
           (PStr "refresh") "denvr/vms.csv" initial_state _ eq_refl Hin).
Defined.

(** ** More on strings *)

Lemma append_assoc (a b c : string) : (a ++ b) ++ c = a ++ b ++ c.
Proof.
  induction a as [|x a IH]; [reflexivity|].
  change (String x ((a ++ b) ++ c) = String x (a ++ b ++ c)).
  rewrite IH. reflexivity.
Qed.

Lemma length_append (a b : string) :
  String.length (a ++ b) = String.length a + String.length b.
Proof.
  induction a as [|x a IH]; [reflexivity|].
  change (S (String.length (a ++ b)) = S (String.length a + String.length b)).
  rewrite IH. reflexivity.
Qed.

Lemma append_inv_head (p a b : string) : p ++ a = p ++ b -> a = b.
Proof.
  induction p as [|x p IH]; [tauto|].
  change (String x (p ++ a) = String x (p ++ b) -> a = b).
  intros [= H]. exact (IH H).
Qed.

Lemma append_inv_tail (a b s : string) : a ++ s = b ++ s -> a = b.
Proof.
  revert b; induction a as [|x a IH]; intros [|y b] H.
  - reflexivity.
  - apply (f_equal String.length) in H.
    change (String.length s = S (String.length (b ++ s))) in H.
    rewrite length_append in H. lia.
  - apply (f_equal String.length) in H.
    change (S (String.length (a ++ s)) = String.length s) in H.
    rewrite length_append in H. lia.
  - change (String x (a ++ s) = String y (b ++ s)) in H.
    injection H as -> H. rewrite (IH b H). reflexivity.
Qed.

Lemma substring_of_prefix (a b hay : string) :
  substring_of (a ++ b) hay -> substring_of a hay.
Proof.
  intros (pre & post & ->). exists pre, (b ++ post).
  rewrite append_assoc. reflexivity.
Qed.

(** ** More on the GPU block and the rows *)

(** X6. The table entry "A100_80GB" is shadowed by "A100", which comes
    first and is a substring of it: a configuration string that names an
    A100_80GB is classified as A100 with 40960 MiB, and no configuration
    string is ever classified as A100_80GB. *)
Theorem classify_gpu_a100_80gb_shadowed (configuration : string) :
  (substring_of "A100_80GB" configuration ->
   classify_gpu (PStr configuration) = Ok (Some "A100", PInt 40960)) /\
  (forall gpu_memory,
     classify_gpu (PStr configuration) <> Ok (Some "A100_80GB", gpu_memory)).
Proof.
  assert (Hshadow : str_contains "A100_80GB" configuration = true ->
                    str_contains "A100" configuration = true).
  { intros H. apply str_contains_iff. apply str_contains_iff in H.
    exact (substring_of_prefix "A100" "_80GB" configuration H). }
  split.
  - intros H. apply str_contains_iff, Hshadow in H.
    unfold classify_gpu. cbn [GPU_TO_MEMORY dict_keys map fst scan_gpu_keys py_contains rbind].
    rewrite H. reflexivity.
  - intros m H. unfold classify_gpu in H.
    cbn [GPU_TO_MEMORY dict_keys map fst scan_gpu_keys py_contains rbind] in H.
    destruct (str_contains "A100_80GB" configuration) eqn:E2.
    + rewrite (Hshadow eq_refl) in H. simpl in H. congruence.
    + clear Hshadow.
      repeat match type of H with
             | context [str_contains ?k configuration] =>
                 destruct (str_contains k configuration)
             end; simpl in H; congruence.
Qed.

Lemma classify_gpu_a100_80gb_node :
  substring_of "A100_80GB" "A100_80GB_SXM_8x" /\
  classify_gpu (PStr "A100_80GB_SXM_8x") = Ok (Some "A100", PInt 40960).
Proof.
  assert (H : substring_of "A100_80GB" "A100_80GB_SXM_8x")
    by (apply str_contains_iff; reflexivity).
  split; [exact H|].
  exact (proj1 (classify_gpu_a100_80gb_shadowed "A100_80GB_SXM_8x") H).
Defined.

(** X7. Building the row of an item raises in two ways only:
    [AttributeError] exactly when the item is not a JSON object (the first
    [vm.get] fails), and [TypeError] exactly when it is an object whose
    configuration is absent, null, a boolean or a number (the [in] test
    fails); every other item gets a row. *)
Theorem catalog_row_exceptions (vm : pyval) :
  (catalog_row vm = Raise AttributeError <-> forall d, vm <> PDict d) /\
  (catalog_row vm = Raise TypeError <->
   exists d, vm = PDict d /\ scalar (field d "configuration")) /\
  (forall e, catalog_row vm = Raise e -> e = AttributeError \/ e = TypeError).
Proof.
  destruct vm as [| | | | | |d];
    try (split; [split; [intros _ d; discriminate | reflexivity]|];
         split; [split; [discriminate | intros (d & Hd & _); discriminate Hd]|];
         intros e [= <-]; left; reflexivity).
  pose proof (catalog_row_raises_iff d) as Hiff. split; [|split].
  - split.
    + intros H. apply Hiff in H as [H _]. discriminate H.
    + intros H. contradiction (H d). reflexivity.
  - split.
    + intros H. apply Hiff in H as [_ H]. exists d. split; [reflexivity | exact H].
    + intros (d' & [= <-] & H). apply Hiff. split; [reflexivity | exact H].
  - intros e H. apply Hiff in H as [-> _]. right. reflexivity.
Qed.

(** An item that is a string, and an object with a numeric configuration. *)
Lemma catalog_row_of_non_offerings :
  catalog_row (PStr "T4-small") = Raise AttributeError /\
  catalog_row (PDict [ ("configuration", PInt 8) ]) = Raise TypeError.
Proof.
  split.
  - apply (proj1 (catalog_row_exceptions (PStr "T4-small"))). intros d. discriminate.
  - apply (proj1 (proj2 (catalog_row_exceptions (PDict [ ("configuration", PInt 8) ])))).
    eexists. split; [reflexivity | exact I].
Defined.

Lemma raise_for_status_passes (resp : response) :
  ~ error_status (status_code resp) -> raise_for_status resp = Ok tt.
Proof.
  intros Hne. unfold raise_for_status.
  destruct (400 <=? status_code resp)%Z eqn:Hlo; [|reflexivity].
  destruct (status_code resp <? 600)%Z eqn:Hhi; [|reflexivity].
  exfalso. apply Hne. split; [apply Z.leb_le, Hlo | apply Z.ltb_lt, Hhi].
Qed.

Lemma fetch_value_at_path (w : world) (cluster : string) (a r : pyval)
  (resp : response) (body v : pyval) :
  server w (fetch_request cluster a r) = Ok resp ->
  ~ error_status (status_code resp) ->
  json_body resp = Some body ->
  json_path body ["result"; "items"] = Some v ->
  fetch_value w cluster a r = Ok v.
Proof.
  intros Hresp Hok Hbody Hpath. unfold fetch_value. rewrite Hresp. cbn [rbind].
  rewrite (raise_for_status_passes resp Hok). cbn [rbind].
  unfold response_json. rewrite Hbody. cbn [rbind]. unfold result_items.
  cbn [json_path] in Hpath.
  destruct body as [| | | | | |d]; try discriminate Hpath.
  cbn [py_get rbind]. destruct (dict_lookup d "result") as [res|]; [|discriminate Hpath].
  destruct res as [| | | | | |res]; try discriminate Hpath.
  cbn. destruct (dict_lookup res "items"); [|discriminate Hpath].
  injection Hpath as ->. reflexivity.
Qed.

(** X8. The defaults of [fetch_vms_for_cluster] cover a missing key, not a
    null: when the response carries result.items but the value there is
    null, a boolean or a number, the loop over it raises [TypeError] right
    after the request, and no row is written for the cluster. *)
Theorem cluster_body_items_not_iterable (w : world) (a r : pyval)
  (path cluster : string) (resp : response) (body v : pyval) (st : state) :
  server w (fetch_request cluster a r) = Ok resp ->
  ~ error_status (status_code resp) ->
  json_body resp = Some body ->
  json_path body ["result"; "items"] = Some v ->
  scalar v ->
  cluster_body w a r path cluster st = (Raise TypeError, fetching a r cluster st).
Proof.
  intros Hresp Hok Hbody Hpath Hv. rewrite cluster_body_run.
  rewrite (fetch_value_at_path w cluster a r resp body v Hresp Hok Hbody Hpath).
  destruct v; try destruct Hv; reflexivity.
Qed.

Lemma cluster_body_null_items :
  ~ error_status 200 /\
  cluster_body null_items_world (PStr "access") (PStr "refresh") "denvr/vms.csv"
    "Msc1" initial_state =
  (Raise TypeError, fetching (PStr "access") (PStr "refresh") "Msc1" initial_state).
Proof.
  assert (Hok : ~ error_status 200) by (unfold error_status; lia).
  split; [exact Hok|].
  exact (cluster_body_items_not_iterable null_items_world (PStr "access") (PStr "refresh")
           "denvr/vms.csv" "Msc1"
           {| status_code := 200; json_body := Some (items_body PNone) |}
           (items_body PNone) PNone initial_state eq_refl Hok eq_refl eq_refl I).
Defined.

(** ** The requests *)

(** X9. The cluster name goes into the URL as it is, so two different
    clusters never share a request: their URLs differ. *)
Theorem fetch_request_distinct (c1 c2 : string) (a r : pyval) :
  c1 <> c2 ->
  GET_AVAILABILITY_ENDPOINT c1 <> GET_AVAILABILITY_ENDPOINT c2 /\
  fetch_request c1 a r <> fetch_request c2 a r.
Proof.
  intros Hne.
  assert (Hurl : GET_AVAILABILITY_ENDPOINT c1 <> GET_AVAILABILITY_ENDPOINT c2).
  { unfold GET_AVAILABILITY_ENDPOINT. intros H.
    apply append_inv_head, append_inv_tail in H. exact (Hne H). }
  split; [exact Hurl|].
  intros H. apply Hurl. exact (f_equal req_url H).
Qed.

Lemma fetch_requests_of_the_two_clusters :
  "Msc1" <> "Hou1" /\
  fetch_request "Msc1" (PStr "access") (PStr "refresh") <>
  fetch_request "Hou1" (PStr "access") (PStr "refresh").
Proof.
  assert (Hne : "Msc1" <> "Hou1") by discriminate.
  split; [exact Hne|].
  exact (proj2 (fetch_request_distinct "Msc1" "Hou1" (PStr "access") (PStr "refresh") Hne)).
Defined.

(** ** The whole script *)

(** X10. End to end.  When the output directory and file can be created,
    the credentials resolve, authentication returns a token pair and every
    cluster returns offerings, the script completes; it has sent the
    authentication POST first and then one GET per cluster, each carrying
    the tokens that authentication returned, and the file holds the header
    and the clusters' rows in order. *)
Theorem main_end_to_end (w : world) (args : namespace) (u p : string)
  (a r : pyval) (items : string -> list pyval) (st : state) :
  makedirs_error w (dirname (args_output args)) = None ->
  open_error w (args_output args) = None ->
  get_credentials w args = Ok (u, p) ->
  fst (authenticate w u p st) = Ok (a, r) ->
  fetches_offerings w a r items CLUSTERS ->
  fst (main w args st) = Ok tt /\
  netlog (snd (main w args st)) =
    (netlog st ++ auth_request u p :: map (fun c => fetch_request c a r) CLUSTERS)%list /\
  rows_at (args_output args) (snd (main w args st)) =
    HEADER :: flat_map (fun c => block (items c)) CLUSTERS.
Proof.
  intros Hdir Hopen Hcred Hauth Hgood. rewrite authenticate_run in Hauth.
  cbn [fst] in Hauth.
  unfold main, bind, makedirs, lift. rewrite Hdir, Hcred, authenticate_run, Hauth.
  rewrite create_catalog_run, Hopen.
  rewrite (cluster_loop_rows w a r (args_output args) items) by exact Hgood.
  cbn [fst snd]. split; [reflexivity|]. split.
  - change (netlog (log_line ?l ?s)) with (netlog s).
    rewrite netlog_clusters_done. cbn [header_written add_row truncate netlog log_request].
    rewrite <- app_assoc. reflexivity.
  - change (rows_at ?q (log_line ?l ?s)) with (rows_at q s).
    rewrite rows_at_clusters_done, rows_at_header_written. reflexivity.
Qed.

Lemma main_two_clusters :
  get_credentials credentials_world explicit_args =
    Ok ("cli-user@example.com", "env-secret") /\
  fst (main credentials_world explicit_args initial_state) = Ok tt /\
  rows_at DEFAULT_OUTPUT_PATH (snd (main credentials_world explicit_args initial_state)) =
    [ HEADER; row_of (PDict cpu_entries); row_of (PDict t4_entries) ].
Proof.
  split; [reflexivity|].
  destruct (main_end_to_end credentials_world explicit_args "cli-user@example.com"
              "env-secret" (PStr "access") (PStr "refresh") two_cluster_items
              initial_state eq_refl eq_refl eq_refl eq_refl) as (Hok & _ & Hrows).
  - intros c [<- | [<- | []]]; (split; [reflexivity|]);
      intros vm [<- | []]; eexists _, _; (split; reflexivity).
  - split; [exact Hok | exact Hrows].
Defined.

(** X11. A failed authentication leaves the catalog alone: whatever
    [authenticate] raises (an error status, a transport error, a malformed
    body), the script ends with that exception after the single POST,
    without having opened, truncated or written any file and without
    having printed anything. *)
Theorem main_authentication_failure (w : world) (args : namespace)
  (u p : string) (e : exn) (st : state) :
  makedirs_error w (dirname (args_output args)) = None ->
  get_credentials w args = Ok (u, p) ->
  fst (authenticate w u p st) = Raise e ->
  main w args st = (Raise e, log_request (auth_request u p) st) /\
  files (snd (main w args st)) = files st /\
  stdout (snd (main w args st)) = stdout st /\
  netlog (snd (main w args st)) = (netlog st ++ [auth_request u p])%list.
Proof.
  intros Hdir Hcred Hauth. rewrite authenticate_run in Hauth. cbn [fst] in Hauth.
  assert (Hrun : main w args st = (Raise e, log_request (auth_request u p) st)).
  { unfold main, bind, makedirs, lift. rewrite Hdir, Hcred, authenticate_run, Hauth.
    reflexivity. }
  rewrite Hrun. repeat split.
Qed.

(** A rejected login over a state in which the catalog already exists. *)
Lemma main_rejected_login_keeps_catalog :
  fst (main rejected_credentials_world no_args stale_state) = Raise (HTTPError 401) /\
  rows_at DEFAULT_OUTPUT_PATH (snd (main rejected_credentials_world no_args stale_state)) =
    [[PStr "stale"]].
Proof.
  destruct (main_authentication_failure rejected_credentials_world no_args
              "env-user@example.com" "env-secret" (HTTPError 401) stale_state
              eq_refl eq_refl eq_refl) as (Hrun & _).
  rewrite Hrun. split; reflexivity.
Defined.

(** ** More on the credentials *)

(** X12. [get_credentials] has two outcomes only.  Either it returns a
    pair whose members were each taken from the command line (when given
    and not empty) or else from the environment; or it raises
    [AssertionError], and then one of the two credentials has no source. *)
Theorem get_credentials_outcome (w : world) (args : namespace) :
  match get_credentials w args with
  | Ok (u, p) =>
      resolved (args_username args) (environ w !! "DENVR_CLOUD_USER_EMAIL") u /\
      resolved (args_password args) (environ w !! "DENVR_CLOUD_PASSWORD") p
  | Raise e =>
      e = AssertionError /\
      (unresolved (args_username args) (environ w !! "DENVR_CLOUD_USER_EMAIL") \/
       unresolved (args_password args) (environ w !! "DENVR_CLOUD_PASSWORD"))
  end.
Proof.
  unfold get_credentials.
  destruct (py_or (args_username args) _) as [u|] eqn:Hu.
  - destruct (py_or (args_password args) _) as [p|] eqn:Hp.
    + split; apply py_or_resolved; assumption.
    + split; [reflexivity|]. right. apply py_or_unresolved, Hp.
  - split; [reflexivity|]. left. apply py_or_unresolved, Hu.
Qed.

(** X13. The assertion of [get_credentials] tests for [None], not for
    emptiness: an empty username is returned exactly when the environment
    variable is set to the empty string while the command line gives no
    username or an empty one (and the password resolves). *)
Theorem get_credentials_empty_username (w : world) (args : namespace) (p : string) :
  get_credentials w args = Ok ("", p) <->
  (args_username args = None \/ args_username args = Some "") /\
  environ w !! "DENVR_CLOUD_USER_EMAIL" = Some "" /\
  resolved (args_password args) (environ w !! "DENVR_CLOUD_PASSWORD") p.
Proof.
  split.
  - intros H. destruct (get_credentials_inv w args "" p H) as [[[_ Hne] | [Hcli Henv]] Hp].
    + contradiction Hne. reflexivity.
    + repeat split; assumption.
  - intros (Hcli & Henv & Hp). apply py_or_resolved in Hp.
    assert (Hu : py_or (args_username args) (environ w !! "DENVR_CLOUD_USER_EMAIL") = Some "").
    { apply py_or_resolved. right. split; assumption. }
    unfold get_credentials. rewrite Hu, Hp. reflexivity.
Qed.

Lemma get_credentials_empty_environment_username :
  environ empty_user_world !! "DENVR_CLOUD_USER_EMAIL" = Some "" /\
  get_credentials empty_user_world no_args = Ok ("", "env-secret").
Proof.
  split; [reflexivity|].
  apply (proj2 (get_credentials_empty_username empty_user_world no_args "env-secret")).
  split; [left; reflexivity|]. split; [reflexivity|].
  right. split; [left; reflexivity | reflexivity].
Defined.
